(** * Mergington High School activities API (src/app.py)

    A shallow embedding of the request handlers of [src/app.py] and of the
    three module-level objects they share: the [activities] dictionary, the
    [ADMIN_SESSIONS] dictionary and the [TEACHER_CREDS] value loaded at
    start-up.  Handlers are computations in a state-and-exception monad over
    the two mutable dictionaries; an exception keeps every mutation made
    before it was raised, as in Python. *)

From stdpp Require Import gmap strings list fin_maps.
From Stdlib Require Import ZArith Ascii.

#[local] Set Warnings "-register-all".
Local Open Scope string_scope.
Local Open Scope list_scope.
Local Open Scope Z_scope.

(** ** Python values that travel as JSON

    Request bodies, response bodies and the credential file are JSON.  The
    type below has the values [json.load] produces, floats left out (no
    handler computes with numbers). *)

Inductive json : Type :=
| JNull
| JBool (b : bool)
| JInt (n : Z)
| JStr (s : string)
| JList (xs : list json)
| JDict (items : list (string * json)).

(** [d.get(k)] on the items of a dictionary: the value, or nothing. *)
Fixpoint items_get (k : string) (items : list (string * json)) : option json :=
  match items with
  | [] => None
  | (k', v) :: rest => if String.eqb k k' then Some v else items_get k rest
  end.

(** Truth value of a Python object, as [not x] and [if x] test it. *)
Definition truthy (v : json) : bool :=
  match v with
  | JNull => false
  | JBool b => b
  | JInt n => negb (Z.eqb n 0)
  | JStr s => negb (String.eqb s "")
  | JList xs => match xs with [] => false | _ => true end
  | JDict items => match items with [] => false | _ => true end
  end.

(** Python's [==] on these values.  [True == 1] and [False == 0] hold in
    Python; lists compare element by element, dictionaries key by key. *)
Fixpoint py_eq (a b : json) {struct a} : bool :=
  match a, b with
  | JNull, JNull => true
  | JBool x, JBool y => Bool.eqb x y
  | JBool x, JInt n | JInt n, JBool x => Z.eqb n (if x then 1 else 0)
  | JInt n, JInt m => Z.eqb n m
  | JStr s, JStr t => String.eqb s t
  | JList xs, JList ys =>
      (fix go (xs ys : list json) {struct xs} : bool :=
         match xs, ys with
         | [], [] => true
         | x :: xs', y :: ys' => py_eq x y && go xs' ys'
         | _, _ => false
         end) xs ys
  | JDict i1, JDict i2 =>
      Nat.eqb (length i1) (length i2) &&
      (fix go (i1 : list (string * json)) {struct i1} : bool :=
         match i1 with
         | [] => true
         | (k, v) :: rest =>
             match items_get k i2 with
             | Some w => py_eq v w && go rest
             | None => false
             end
         end) i1
  | _, _ => false
  end.

(** ** Exceptions and handler results *)

Inductive exn : Type :=
| HTTPException (status_code : Z) (detail : string)
| AttributeError
| TypeError
| IndexError
| ValueError
| OSError
| OverflowError.

Inductive res (A : Type) : Type :=
| Val (a : A)
| Raise (e : exn).
Arguments Val {A} a.
Arguments Raise {A} e.

(** ** The shared state *)

(** One value of the [activities] dictionary. *)
Record Activity : Type := mkActivity {
  description : string;
  schedule : string;
  max_participants : Z;
  participants : list string
}.

Record State : Type := mkState {
  activities : gmap string Activity;
  ADMIN_SESSIONS : gmap string string   (* token -> expiry (ISO timestamp string) *)
}.

Definition with_participants (ps : list string) (a : Activity) : Activity :=
  {| description := description a; schedule := schedule a;
     max_participants := max_participants a; participants := ps |}.

Definition with_activities (acts : gmap string Activity) (σ : State) : State :=
  {| activities := acts; ADMIN_SESSIONS := ADMIN_SESSIONS σ |}.

Definition with_sessions (tbl : gmap string string) (σ : State) : State :=
  {| activities := activities σ; ADMIN_SESSIONS := tbl |}.

(** ** The handler monad *)

Definition M (A : Type) : Type := State → res A * State.

#[global] Instance M_ret : MRet M := λ A a σ, (Val a, σ).

#[global] Instance M_bind : MBind M := λ A B k m σ,
  match m σ with
  | (Val a, σ') => k a σ'
  | (Raise e, σ') => (Raise e, σ')
  end.

Definition raise {A : Type} (e : exn) : M A := λ σ, (Raise e, σ).
Definition lift_res {A : Type} (r : res A) : M A := λ σ, (r, σ).
Definition get_state : M State := λ σ, (Val σ, σ).
Definition put_state (σ' : State) : M unit := λ _, (Val tt, σ').

(** What FastAPI sends for a handler result: the status code and the body.
    An [HTTPException] becomes its status code with a [detail] body; any
    other exception is an internal server error. *)
Definition http_response (r : res json) : Z * json :=
  match r with
  | Val body => (200, body)
  | Raise (HTTPException status_code detail) =>
      (status_code, JDict [("detail", JStr detail)])
  | Raise _ => (500, JStr "Internal Server Error")
  end.

Definition status (r : res json) : Z := fst (http_response r).

(** ** The activity store *)

Definition seed (d s : string) (m : Z) (p1 p2 : string) : Activity :=
  {| description := d; schedule := s; max_participants := m;
     participants := [p1; p2] |}.

(** The [activities] literal, lines 27 to 82. *)
Definition initial_activities : gmap string Activity :=
  list_to_map [
    ("Chess Club",
      seed "Learn strategies and compete in chess tournaments"
           "Fridays, 3:30 PM - 5:00 PM" 12
           "michael@mergington.edu" "daniel@mergington.edu");
    ("Programming Class",
      seed "Learn programming fundamentals and build software projects"
           "Tuesdays and Thursdays, 3:30 PM - 4:30 PM" 20
           "emma@mergington.edu" "sophia@mergington.edu");
    ("Gym Class",
      seed "Physical education and sports activities"
           "Mondays, Wednesdays, Fridays, 2:00 PM - 3:00 PM" 30
           "john@mergington.edu" "olivia@mergington.edu");
    ("Soccer Team",
      seed "Join the school soccer team and compete in matches"
           "Tuesdays and Thursdays, 4:00 PM - 5:30 PM" 22
           "liam@mergington.edu" "noah@mergington.edu");
    ("Basketball Team",
      seed "Practice and play basketball with the school team"
           "Wednesdays and Fridays, 3:30 PM - 5:00 PM" 15
           "ava@mergington.edu" "mia@mergington.edu");
    ("Art Club",
      seed "Explore your creativity through painting and drawing"
           "Thursdays, 3:30 PM - 5:00 PM" 15
           "amelia@mergington.edu" "harper@mergington.edu");
    ("Drama Club",
      seed "Act, direct, and produce plays and performances"
           "Mondays and Wednesdays, 4:00 PM - 5:30 PM" 20
           "ella@mergington.edu" "scarlett@mergington.edu");
    ("Math Club",
      seed "Solve challenging problems and participate in math competitions"
           "Tuesdays, 3:30 PM - 4:30 PM" 10
           "james@mergington.edu" "benjamin@mergington.edu");
    ("Debate Team",
      seed "Develop public speaking and argumentation skills"
           "Fridays, 4:00 PM - 5:30 PM" 12
           "charlotte@mergington.edu" "henry@mergington.edu")
  ].

(** The state once the module has been imported: the seed activities and
    [ADMIN_SESSIONS: dict = {}]. *)
Definition initial_state : State :=
  {| activities := initial_activities; ADMIN_SESSIONS := ∅ |}.

(** [activity["participants"].append(email)], where [activity] is the very
    object stored under [activity_name]: the list inside the dictionary is
    extended in place.  No two activities share a participants list (each
    seed entry has a list literal of its own). *)
Definition append_participant (activity_name email : string) : M unit :=
  σ ← get_state;
  put_state (with_activities
    (alter (λ a, with_participants (participants a ++ [email]) a)
           activity_name (activities σ)) σ).

(** [signup_for_activity], lines 172 to 191. *)
Definition signup_for_activity (activity_name email : string) : M json :=
  σ ← get_state;
  match activities σ !! activity_name with
  | None => raise (HTTPException 404 "Activity not found")
  | Some activity =>
      if decide (email ∈ participants activity)
      then raise (HTTPException 400 "Student is already signed up")
      else
        append_participant activity_name email;;
        mret (JDict [("message",
                      JStr ("Signed up " +:+ email +:+ " for " +:+ activity_name))])
  end.

(** [participants.remove(email)]: the list without the first element equal
    to [email]; [None] is the [ValueError] of a missing element. *)
Fixpoint list_remove_first (email : string) (l : list string) : option (list string) :=
  match l with
  | [] => None
  | x :: rest =>
      if decide (x = email) then Some rest
      else (x ::.) <$> list_remove_first email rest
  end.

(** ** Strings of the Authorization header *)

(** [s.startswith(prefix)] *)
Fixpoint startswith (s prefix : string) {struct prefix} : bool :=
  match prefix, s with
  | EmptyString, _ => true
  | String a prefix', String b s' => Ascii.eqb a b && startswith s' prefix'
  | String _ _, EmptyString => false
  end.

(** [s.split(" ", 1)]: the text before the first space and the text after
    it, or [s] alone when it has no space. *)
Fixpoint split_space_once (s : string) : list string :=
  match s with
  | EmptyString => [""]
  | String c rest =>
      if Ascii.eqb c " " then [""; rest]
      else match split_space_once rest with
           | hd :: tl => String c hd :: tl
           | [] => [String c ""]
           end
  end.

(** The token inside a header value (lines 111-112 and line 156):
    [token.split(" ", 1)[1] if token.startswith("Bearer ") else token]. *)
Definition bearer_token (token : string) : M string :=
  if startswith token "Bearer "
  then match split_space_once token !! 1%nat with
       | Some t => mret t
       | None => raise IndexError
       end
  else mret token.

(** ** Time

    A naive [datetime] is its number of microseconds since
    1970-01-01T00:00:00; [>] on datetimes is that of [Z], and [+] with a
    [timedelta] is that of [Z] as long as the sum is a datetime.  The two
    conversions with ISO strings belong to Python's library and are an
    interface here. *)
Class Datetime : Type := {
  isoformat : Z → string;
  fromisoformat : string → option Z   (* [None]: raises [ValueError] *)
}.

(** [timedelta(hours=n)] *)
Definition hours (n : Z) : Z := n * 3600 * 1000000.

(** [datetime.min] and [datetime.max]: 0001-01-01T00:00:00 and
    9999-12-31T23:59:59.999999. *)
Definition datetime_min : Z := -62135596800000000.
Definition datetime_max : Z := 253402300799999999.

(** An instant that is a [datetime]. *)
Definition representable (t : Z) : bool :=
  (datetime_min <=? t) && (t <=? datetime_max).

(** [d + delta] for a datetime and a timedelta: an [OverflowError] when the
    sum is no datetime. *)
Definition datetime_add (d delta : Z) : res Z :=
  if representable (d + delta) then Val (d + delta) else Raise OverflowError.

(** ** Session manager and handlers *)

Section Handlers.
Context `{Datetime}.

(** [ADMIN_SESSIONS.pop(token, None)] *)
Definition pop_session (token : string) : M unit :=
  σ ← get_state;
  put_state (with_sessions (delete token (ADMIN_SESSIONS σ)) σ).

(** [_create_admin_token], lines 100 to 104; [uuid4_hex] is the value of
    [uuid.uuid4().hex] and [utcnow] that of [datetime.utcnow()]. *)
Definition _create_admin_token (uuid4_hex : string) (utcnow : Z) : M string :=
  let token := uuid4_hex in
  expiry ← lift_res (datetime_add utcnow (hours 8));
  σ ← get_state;
  put_state (with_sessions (<[token := isoformat expiry]> (ADMIN_SESSIONS σ)) σ);;
  mret token.

(** [_validate_admin_token], lines 107 to 124. *)
Definition _validate_admin_token (token : option string) (utcnow : Z) : M bool :=
  match token with
  | None => mret false
  | Some token =>
      if String.eqb token "" then mret false
      else
        token ← bearer_token token;
        σ ← get_state;
        match ADMIN_SESSIONS σ !! token with
        | None => mret false
        | Some expiry_iso =>
            if String.eqb expiry_iso "" then mret false
            else match fromisoformat expiry_iso with
                 | None => mret false
                 | Some expiry =>
                     if (expiry <? utcnow)%Z   (* datetime.utcnow() > expiry *)
                     then pop_session token;; mret false
                     else mret true
                 end
        end
  end.

(** [require_admin], lines 127 to 130; [authorization] is [None] when the
    request has no Authorization header. *)
Definition require_admin (authorization : option string) (utcnow : Z) : M unit :=
  ok ← _validate_admin_token (Some (default "" authorization)) utcnow;
  if ok : bool then mret tt
  else raise (HTTPException 401 "Admin authentication required").

(** [d.get(k)] and [d.get(k, dflt)] on an arbitrary object: only a
    dictionary has the method. *)
Definition py_get (d : json) (k : string) (dflt : json) : M json :=
  match d with
  | JDict items => mret (default dflt (items_get k items))
  | _ => raise AttributeError
  end.

Fixpoint chars (s : string) : list json :=
  match s with
  | EmptyString => []
  | String c rest => JStr (String c "") :: chars rest
  end.

(** The elements a [for] loop visits. *)
Definition py_iter (v : json) : M (list json) :=
  match v with
  | JList xs => mret xs
  | JStr s => mret (chars s)
  | JDict items => mret (JStr <$> items.*1)
  | _ => raise TypeError
  end.

(** The loop of [admin_login], lines 144 to 149. *)
Fixpoint scan_teachers (teachers : list json) (username password : json)
    (uuid4_hex : string) (utcnow : Z) : M json :=
  match teachers with
  | [] => raise (HTTPException 401 "Invalid credentials")
  | t :: rest =>
      u ← py_get t "username" JNull;
      if py_eq u username then
        p ← py_get t "password" JNull;
        if py_eq p password then
          token ← _create_admin_token uuid4_hex utcnow;
          mret (JDict [("token", JStr token); ("expires_in_hours", JInt 8)])
        else scan_teachers rest username password uuid4_hex utcnow
      else scan_teachers rest username password uuid4_hex utcnow
  end.

(** [admin_login], lines 133 to 149; [credentials] holds the items of the
    request body and [TEACHER_CREDS] the value loaded at start-up. *)
Definition admin_login (TEACHER_CREDS : json) (credentials : list (string * json))
    (uuid4_hex : string) (utcnow : Z) : M json :=
  let username := default JNull (items_get "username" credentials) in
  let password := default JNull (items_get "password" credentials) in
  if negb (truthy username) || negb (truthy password)
  then raise (HTTPException 400 "username and password required")
  else
    teachers ← py_get TEACHER_CREDS "teachers" (JList []);
    ts ← py_iter teachers;
    scan_teachers ts username password uuid4_hex utcnow.

(** [admin_logout], lines 152 to 158. *)
Definition admin_logout (authorization : option string) : M json :=
  match authorization with
  | None => raise (HTTPException 400 "Authorization header required")
  | Some authorization =>
      if String.eqb authorization ""
      then raise (HTTPException 400 "Authorization header required")
      else
        token ← bearer_token authorization;
        pop_session token;;
        mret (JDict [("detail", JStr "logged out")])
  end.

(** [get_activities], lines 167 to 169: the dictionary itself. *)
Definition get_activities : M (gmap string Activity) :=
  σ ← get_state; mret (activities σ).

(** [unregister_from_activity], lines 194 to 213.  FastAPI runs the
    [require_admin] dependency before the body of the handler. *)
Definition unregister_from_activity (activity_name email : string)
    (authorization : option string) (utcnow : Z) : M json :=
  require_admin authorization utcnow;;
  σ ← get_state;
  match activities σ !! activity_name with
  | None => raise (HTTPException 404 "Activity not found")
  | Some activity =>
      if decide (email ∈ participants activity)
      then
        match list_remove_first email (participants activity) with
        | None => raise ValueError
        | Some ps =>
            put_state (with_activities
              (alter (with_participants ps) activity_name (activities σ)) σ);;
            mret (JDict [("message",
              JStr ("Unregistered " +:+ email +:+ " from " +:+ activity_name))])
        end
      else raise (HTTPException 400 "Student is not signed up for this activity")
  end.

End Handlers.

(** ** Credential loading, lines 86 to 94

    [file_exists] is the result of [_creds_file.exists()] and [loaded] what
    [open] followed by [json.load] does: the parsed value, or the exception
    raised (an [OSError] for a file that cannot be read, a [ValueError] for
    content that is not JSON). *)

Definition empty_creds : json := JDict [("teachers", JList [])].

(** [try: body / except Exception: handler]; every exception of [exn] is a
    subclass of [Exception]. *)
Definition try_except {A : Type} (body : res A) (handler : exn → res A) : res A :=
  match body with
  | Val a => Val a
  | Raise e => handler e
  end.

Definition load_TEACHER_CREDS (file_exists : bool) (loaded : res json) : res json :=
  let TEACHER_CREDS := empty_creds in
  if file_exists
  then try_except loaded (λ _, Val empty_creds)
  else Val TEACHER_CREDS.

(** ** Requests and reachable states *)

Inductive request : Type :=
| GetActivities
| Signup (activity_name email : string)
| Unregister (activity_name email : string) (authorization : option string)
| Login (credentials : list (string * json))
| Logout (authorization : option string).

Definition activity_json (a : Activity) : json :=
  JDict [("description", JStr (description a));
         ("schedule", JStr (schedule a));
         ("max_participants", JInt (max_participants a));
         ("participants", JList (JStr <$> participants a))].

Section Server.
Context `{Datetime}.
Variable TEACHER_CREDS : json.

(** One request served; [uuid4_hex] and [utcnow] are what the random
    generator and the clock give during it. *)
Definition handle (r : request) (uuid4_hex : string) (utcnow : Z) : M json :=
  match r with
  | GetActivities =>
      acts ← get_activities;
      mret (JDict (prod_map id activity_json <$> map_to_list acts))
  | Signup activity_name email => signup_for_activity activity_name email
  | Unregister activity_name email authorization =>
      unregister_from_activity activity_name email authorization utcnow
  | Login credentials => admin_login TEACHER_CREDS credentials uuid4_hex utcnow
  | Logout authorization => admin_logout authorization
  end.

(** The states the server can be in: the state after import, and the state
    any request leaves behind. *)
Inductive reachable : State → Prop :=
| reachable_init : reachable initial_state
| reachable_step σ r uuid4_hex utcnow :
    reachable σ → reachable (handle r uuid4_hex utcnow σ).2.

(** The state after a list of requests, each with its random value and
    clock reading. *)
Fixpoint serve (rs : list (request * string * Z)) (σ : State) : State :=
  match rs with
  | [] => σ
  | (r, uuid4_hex, utcnow) :: rest => serve rest (handle r uuid4_hex utcnow σ).2
  end.
End Server.

(** ** An executable calendar

    An instance of the datetime interface for running the handlers on
    concrete requests: the proleptic Gregorian calendar of Python's
    [datetime], printed as [YYYY-MM-DDTHH:MM:SS] with [.ffffff] appended when
    the microseconds are not zero, and a reader of exactly that format. *)
Module Calendar.

Definition days_from_civil (y m d : Z) : Z :=
  let y := if m <=? 2 then y - 1 else y in
  let era := y / 400 in
  let yoe := y - era * 400 in
  let doy := (153 * (if 2 <? m then m - 3 else m + 9) + 2) / 5 + d - 1 in
  let doe := yoe * 365 + yoe / 4 - yoe / 100 + doy in
  era * 146097 + doe - 719468.

Definition civil_from_days (z : Z) : Z * Z * Z :=
  let z := z + 719468 in
  let era := z / 146097 in
  let doe := z - era * 146097 in
  let yoe := (doe - doe / 1460 + doe / 36524 - doe / 146096) / 365 in
  let doy := doe - (365 * yoe + yoe / 4 - yoe / 100) in
  let mp := (5 * doy + 2) / 153 in
  let d := doy - (153 * mp + 2) / 5 + 1 in
  let m := if mp <? 10 then mp + 3 else mp - 9 in
  (yoe + era * 400 + (if m <=? 2 then 1 else 0), m, d).

Definition digit (n : Z) : ascii := ascii_of_nat (48 + Z.to_nat (n mod 10)).

Fixpoint pad (width : nat) (n : Z) (acc : string) : string :=
  match width with
  | O => acc
  | S w => pad w (n / 10) (String (digit n) acc)
  end.

Definition print (t : Z) : string :=
  let us := t mod 1000000 in
  let s := t / 1000000 in
  let '(y, m, d) := civil_from_days (s / 86400) in
  let sod := s mod 86400 in
  pad 4 y ("-" +:+ pad 2 m ("-" +:+ pad 2 d ("T" +:+
  pad 2 (sod / 3600) (":" +:+ pad 2 (sod mod 3600 / 60) (":" +:+
  pad 2 (sod mod 60) (if us =? 0 then "" else "." +:+ pad 6 us "")))))).

Definition digit_value (c : ascii) : option Z :=
  let n := Z.of_nat (nat_of_ascii c) in
  if (48 <=? n) && (n <=? 57) then Some (n - 48) else None.

(** [width] digits at the head of [s], and the rest of [s] *)
Fixpoint number (width : nat) (acc : Z) (s : string) : option (Z * string) :=
  match width, s with
  | O, _ => Some (acc, s)
  | S w, String c rest =>
      v ← digit_value c; number w (acc * 10 + v) rest
  | S _, EmptyString => None
  end.

Definition expect (c : ascii) (s : string) : option string :=
  match s with
  | String c' rest => if Ascii.eqb c c' then Some rest else None
  | EmptyString => None
  end.

Definition read (s : string) : option Z :=
  '(y, s) ← number 4 0 s; s ← expect "-" s;
  '(m, s) ← number 2 0 s; s ← expect "-" s;
  '(d, s) ← number 2 0 s; s ← expect "T" s;
  '(hh, s) ← number 2 0 s; s ← expect ":" s;
  '(mm, s) ← number 2 0 s; s ← expect ":" s;
  '(ss, s) ← number 2 0 s;
  '(us, s) ← match s with
             | EmptyString => Some (0, s)
             | _ => s ← expect "." s; number 6 0 s
             end;
  let days := days_from_civil y m d in
  if String.eqb s "" && (1 <=? y) && (hh <? 24) && (mm <? 60) && (ss <? 60)
     && bool_decide (civil_from_days days = (y, m, d))
  then Some ((days * 86400 + hh * 3600 + mm * 60 + ss) * 1000000 + us)
  else None.

Definition calendar : Datetime :=
  {| isoformat := print; fromisoformat := read |}.

End Calendar.

(** ** Notions the specification uses *)

Fixpoint string_drop (n : nat) (s : string) : string :=
  match n, s with
  | O, _ => s
  | S n', String _ rest => string_drop n' rest
  | S _, EmptyString => ""
  end.

(** A header value without its optional ["Bearer "] prefix. *)
Definition strip_bearer (header : string) : string :=
  if startswith header "Bearer " then string_drop 7 header else header.

(** One step of a participants list: nothing, one email appended at the
    end, or one email taken out with the others kept in order. *)
Inductive roster_step (old : list string) : list string → Prop :=
| roster_same : roster_step old old
| roster_appended email :
    email ∉ old → roster_step old (old ++ [email])
| roster_removed email before after :
    old = before ++ email :: after → email ∉ before →
    roster_step old (before ++ after).

(** Between [σ] and [σ'] nothing but the participants list of
    [activity_name] may differ. *)
Definition only_roster_changed (activity_name : string) (σ σ' : State) : Prop :=
  ADMIN_SESSIONS σ' = ADMIN_SESSIONS σ ∧
  (∀ other, other ≠ activity_name →
     activities σ' !! other = activities σ !! other) ∧
  ∃ a a', activities σ !! activity_name = Some a ∧
          activities σ' !! activity_name = Some a' ∧
          description a' = description a ∧
          schedule a' = schedule a ∧
          max_participants a' = max_participants a.

Section SessionNotions.
Context `{Datetime}.

(** The expiry recorded for a token: the timestamp its table entry
    holds, when there is an entry and it holds one. *)
Definition recorded_expiry (σ : State) (token : string) : option Z :=
  expiry_iso ← ADMIN_SESSIONS σ !! token;
  if String.eqb expiry_iso "" then None else fromisoformat expiry_iso.

(** A header value that names a session which has not expired. *)
Definition session_valid (σ : State) (header : string) (utcnow : Z) : bool :=
  negb (String.eqb header "") &&
  match recorded_expiry σ (strip_bearer header) with
  | Some expiry => negb (expiry <? utcnow)
  | None => false
  end.

(** What a login does once an entry has matched: the session is recorded
    and the token returned, unless the expiry is no datetime. *)
Definition session_granted (uuid4_hex : string) (utcnow : Z) (σ : State)
    : res json * State :=
  if representable (utcnow + hours 8)
  then (Val (JDict [("token", JStr uuid4_hex); ("expires_in_hours", JInt 8)]),
        with_sessions
          (<[uuid4_hex := isoformat (utcnow + hours 8)]> (ADMIN_SESSIONS σ)) σ)
  else (Raise OverflowError, σ).

(** A credential entry that matches the submitted pair. *)
Definition cred_matches (username password t : json) : bool :=
  match t with
  | JDict items =>
      py_eq (default JNull (items_get "username" items)) username &&
      py_eq (default JNull (items_get "password" items)) password
  | _ => false
  end.

Definition is_dict (v : json) : bool :=
  match v with JDict _ => true | _ => false end.


(** The logout sentence read literally: 400 exactly when the request has
    no Authorization header. *)
Definition logout_as_stated : Prop :=
  ∀ (authorization : option string) (σ : State),
    status (admin_logout authorization σ).1 = 400 ↔ authorization = None.
End SessionNotions.

(** ** The loader sentence of the specification *)




(** ** Notions for the rest of the module *)

(** The credential file in its documented shape: one object per teacher,
    with a username and a password. *)
Definition teacher_entry (c : string * string) : json :=
  JDict [("username", JStr c.1); ("password", JStr c.2)].

Definition teachers_file (cs : list (string * string)) : json :=
  JDict [("teachers", JList (teacher_entry <$> cs))].

(** Two records that agree on everything but the participants. *)
Definition same_details (a a' : Activity) : Prop :=
  description a' = description a ∧
  schedule a' = schedule a ∧
  max_participants a' = max_participants a.

(** A result FastAPI answers from the handler's own words: a returned body,
    or an [HTTPException] with one of the given status codes.  Any other
    exception would be an internal server error. *)
Definition answers (codes : list Z) (r : res json) : Prop :=
  match r with
  | Val _ => True
  | Raise (HTTPException status_code _) => status_code ∈ codes
  | Raise _ => False
  end.

(** ** A concrete run

    One teacher on file, who logs in on 2024-01-01 at midnight. *)
Module Example.
Definition teachers : list json :=
  [JDict [("username", JStr "ms.rivera"); ("password", JStr "chalk-and-talk")]].

Definition creds_items : list (string * json) := [("teachers", JList teachers)].

Definition creds : json := JDict creds_items.

Definition body : list (string * json) :=
  [("username", JStr "ms.rivera"); ("password", JStr "chalk-and-talk")].

Definition token : string := "3f2b8c1e9a4d4f6b8e7a5c0d1b2e3f4a".

(** 2024-01-01T00:00:00 *)
Definition midnight : Z := 1704067200000000.

Definition logged_in : State :=
  (@admin_login Calendar.calendar creds body token midnight initial_state).2.

Definition bearer : option string := Some ("Bearer " +:+ token).

(** 04:00, 08:00 and 09:00 of the same day; the session ends at 08:00. *)
Definition four : Z := midnight + hours 4.
Definition eight : Z := midnight + hours 8.
Definition nine : Z := midnight + hours 9.

Definition chess_club : Activity :=
  seed "Learn strategies and compete in chess tournaments"
       "Fridays, 3:30 PM - 5:00 PM" 12
       "michael@mergington.edu" "daniel@mergington.edu".

(** A morning at the Chess Club: a signup, the teacher's login, and the
    teacher taking the first student off the list. *)
Definition morning : list (request * string * Z) :=
  [(Signup "Chess Club" "emma@mergington.edu", "", midnight);
   (Login body, token, midnight);
   (Unregister "Chess Club" "michael@mergington.edu" bearer, "", four)].

Definition after_morning : State :=
  @serve Calendar.calendar creds morning initial_state.

(** Students signing up for the Math Club, which has 10 places and 2
    participants in the seed data. *)
Definition rush (emails : list string) : list (request * string * Z) :=
  (λ email, (Signup "Math Club" email, "", midnight)) <$> emails.

Definition eight_students : list string :=
  ["ada@mergington.edu"; "blaise@mergington.edu"; "carl@mergington.edu";
   "emmy@mergington.edu"; "felix@mergington.edu"; "grace@mergington.edu";
   "hypatia@mergington.edu"; "isaac@mergington.edu"].

Definition math_club_full : State :=
  @serve Calendar.calendar creds (rush eight_students) initial_state.
End Example.

(** * Properties *)

Ltac run :=
  unfold mbind, M_bind, mret, M_ret, raise, get_state, put_state in *;
  simpl in *.

(** ** Activity store *)

Lemma signup_not_found (activity_name email : string) (σ : State) :
  activities σ !! activity_name = None →
  signup_for_activity activity_name email σ
  = (Raise (HTTPException 404 "Activity not found"), σ).
Proof. intros Hnone. unfold signup_for_activity. run. by rewrite Hnone. Qed.

Lemma signup_conflict (activity_name email : string) (σ : State) (a : Activity) :
  activities σ !! activity_name = Some a →
  email ∈ participants a →
  signup_for_activity activity_name email σ
  = (Raise (HTTPException 400 "Student is already signed up"), σ).
Proof.
  intros Ha Hin. unfold signup_for_activity. run. rewrite Ha.
  by destruct (decide (email ∈ participants a)).
Qed.

Lemma signup_ok (activity_name email : string) (σ : State) (a : Activity) :
  activities σ !! activity_name = Some a →
  email ∉ participants a →
  signup_for_activity activity_name email σ
  = (Val (JDict [("message",
            JStr ("Signed up " +:+ email +:+ " for " +:+ activity_name))]),
     with_activities
       (<[activity_name := with_participants (participants a ++ [email]) a]>
          (activities σ)) σ).
Proof.
  intros Ha Hin. unfold signup_for_activity, append_participant. run. rewrite Ha.
  destruct (decide (email ∈ participants a)); [done|].
  do 2 f_equal. apply map_eq. intros k.
  destruct (decide (activity_name = k)) as [->|Hne].
  - by rewrite lookup_alter_eq, lookup_insert_eq, Ha.
  - by rewrite lookup_alter_ne, lookup_insert_ne.
Qed.

(** C1: signup fails with 404 when the name is no key of the activity map,
    otherwise with 400 when the email is already in that activity's
    participants, and otherwise appends the email at the end of that list
    and answers 200 with the confirmation message. *)
Theorem signup_for_activity_spec (activity_name email : string) (σ : State) :
  let r := (signup_for_activity activity_name email σ).1 in
  let σ' := (signup_for_activity activity_name email σ).2 in
  (activities σ !! activity_name = None →
     r = Raise (HTTPException 404 "Activity not found") ∧ status r = 404) ∧
  (∀ a, activities σ !! activity_name = Some a → email ∈ participants a →
     r = Raise (HTTPException 400 "Student is already signed up") ∧
     status r = 400) ∧
  (∀ a, activities σ !! activity_name = Some a → email ∉ participants a →
     r = Val (JDict [("message",
            JStr ("Signed up " +:+ email +:+ " for " +:+ activity_name))]) ∧
     status r = 200 ∧
     ∃ a', activities σ' !! activity_name = Some a' ∧
           participants a' = participants a ++ [email]).
Proof.
  repeat split.
  - by rewrite signup_not_found.
  - by rewrite signup_not_found.
  - by erewrite signup_conflict.
  - by erewrite signup_conflict.
  - by erewrite signup_ok.
  - by erewrite signup_ok.
  - erewrite signup_ok by done. simpl. rewrite lookup_insert_eq. eauto.
Qed.

Lemma signup_for_activity_spec_witness :
  (signup_for_activity "Sailing" "emma@mergington.edu" initial_state).1
    = Raise (HTTPException 404 "Activity not found") ∧
  (signup_for_activity "Chess Club" "daniel@mergington.edu" initial_state).1
    = Raise (HTTPException 400 "Student is already signed up") ∧
  ∃ a', activities
          (signup_for_activity "Chess Club" "emma@mergington.edu" initial_state).2
          !! "Chess Club" = Some a' ∧
        participants a'
        = ["michael@mergington.edu"; "daniel@mergington.edu"; "emma@mergington.edu"].
Proof.
  split; [|split].
  - apply (signup_for_activity_spec "Sailing" "emma@mergington.edu" initial_state).
    reflexivity.
  - destruct (signup_for_activity_spec "Chess Club" "daniel@mergington.edu"
                initial_state) as (_ & Hdup & _).
    apply (Hdup Example.chess_club); [reflexivity|].
    apply (bool_decide_unpack _). vm_compute. exact I.
  - destruct (signup_for_activity_spec "Chess Club" "emma@mergington.edu"
                initial_state) as (_ & _ & Hfresh).
    destruct (Hfresh Example.chess_club) as (_ & _ & a' & Ha' & Hps);
      [reflexivity | apply (bool_decide_unpack _); vm_compute; exact I |].
    exists a'. split; [exact Ha' | exact Hps].
Defined.

(** ** Session manager *)

Lemma startswith_app (s prefix : string) :
  startswith s prefix = true →
  s = prefix +:+ string_drop (String.length prefix) s.
Proof.
  revert s. induction prefix as [|a prefix IH]; intros s Hpre; [done|].
  destruct s as [|b s]; [done|]. simpl in Hpre.
  apply andb_prop in Hpre as [Hab Hrest].
  apply Ascii.eqb_eq in Hab as ->.
  change (String b s = String b (prefix +:+ string_drop (String.length prefix) s)).
  f_equal. by apply IH.
Qed.

Lemma split_bearer (token : string) :
  startswith token "Bearer " = true →
  split_space_once token !! 1%nat = Some (string_drop 7 token).
Proof.
  intros Hpre. apply startswith_app in Hpre.
  change (String.length "Bearer ") with 7%nat in Hpre.
  remember (string_drop 7 token) as rest. by rewrite Hpre.
Qed.

Lemma bearer_token_strip (token : string) (σ : State) :
  bearer_token token σ = (Val (strip_bearer token), σ).
Proof.
  unfold bearer_token, strip_bearer.
  destruct (startswith token "Bearer ") eqn:Hpre; [|done].
  by rewrite split_bearer.
Qed.

Lemma strip_bearer_prefixed (t : string) : strip_bearer ("Bearer " +:+ t) = t.
Proof. reflexivity. Qed.

Lemma strip_bearer_raw (t : string) :
  startswith t "Bearer " = false → strip_bearer t = t.
Proof. intros Hraw. unfold strip_bearer. by rewrite Hraw. Qed.

Lemma delete_session_changes (σ : State) (token expiry_iso : string) :
  ADMIN_SESSIONS σ !! token = Some expiry_iso →
  with_sessions (delete token (ADMIN_SESSIONS σ)) σ ≠ σ.
Proof.
  intros Hin Heq. apply (f_equal ADMIN_SESSIONS) in Heq. simpl in Heq.
  apply (f_equal (λ m : gmap string string, m !! token)) in Heq.
  rewrite lookup_delete_eq, Hin in Heq. discriminate.
Qed.

Section SessionManager.
Context `{Datetime}.

(** The validation function computes [session_valid], and changes the
    table only to evict the entry it found expired. *)
Lemma validate_admin_token_run (header : string) (utcnow : Z) (σ : State) :
  _validate_admin_token (Some header) utcnow σ =
  if String.eqb header "" then (Val false, σ)
  else match recorded_expiry σ (strip_bearer header) with
       | Some expiry =>
           if expiry <? utcnow
           then (Val false,
                 with_sessions
                   (delete (strip_bearer header) (ADMIN_SESSIONS σ)) σ)
           else (Val true, σ)
       | None => (Val false, σ)
       end.
Proof.
  unfold _validate_admin_token, recorded_expiry, pop_session.
  destruct (String.eqb header "") eqn:Hempty; [done|].
  run. rewrite bearer_token_strip.
  destruct (ADMIN_SESSIONS σ !! strip_bearer header) as [expiry_iso|]; [|done].
  simpl. destruct (String.eqb expiry_iso ""); [done|].
  destruct (fromisoformat expiry_iso) as [expiry|]; [|done].
  by destruct (expiry <? utcnow).
Qed.

Lemma validate_admin_token_valid (header : string) (utcnow : Z) (σ : State) :
  (_validate_admin_token (Some header) utcnow σ).1
  = Val (session_valid σ header utcnow).
Proof.
  rewrite validate_admin_token_run. unfold session_valid.
  destruct (String.eqb header ""); [done|]. simpl.
  destruct (recorded_expiry σ (strip_bearer header)) as [expiry|]; [|done].
  by destruct (expiry <? utcnow).
Qed.

Lemma validate_admin_token_true (header : string) (utcnow : Z) (σ : State) :
  session_valid σ header utcnow = true →
  _validate_admin_token (Some header) utcnow σ = (Val true, σ).
Proof.
  rewrite validate_admin_token_run. unfold session_valid.
  destruct (String.eqb header ""); [done|]. simpl.
  destruct (recorded_expiry σ (strip_bearer header)) as [expiry|]; [|done].
  by destruct (expiry <? utcnow).
Qed.

Lemma validate_admin_token_activities (token : option string) (utcnow : Z)
    (σ : State) :
  activities (_validate_admin_token token utcnow σ).2 = activities σ.
Proof.
  destruct token as [header|]; [|done].
  rewrite validate_admin_token_run.
  destruct (String.eqb header ""); [done|].
  destruct (recorded_expiry σ (strip_bearer header)) as [expiry|]; [|done].
  by destruct (expiry <? utcnow).
Qed.

(** C4: validation takes a raw token or one prefixed with ["Bearer "],
    the prefix being stripped before the lookup.  It answers false for an
    empty header, for a token absent from the session table and for a
    token whose recorded expiry is in the past; it answers true for a
    recorded expiry that is not in the past.  In the expired case, and in
    no other, the entry is removed from the table; a valid token leaves
    the table as it was. *)
Theorem validate_admin_token_spec (header : string) (utcnow : Z) (σ : State) :
  let token := strip_bearer header in
  let run := _validate_admin_token (Some header) utcnow σ in
  (∀ t, strip_bearer ("Bearer " +:+ t) = t) ∧
  (startswith header "Bearer " = false → token = header) ∧
  (header = "" → run = (Val false, σ)) ∧
  (ADMIN_SESSIONS σ !! token = None → run = (Val false, σ)) ∧
  (∀ expiry, header ≠ "" → recorded_expiry σ token = Some expiry →
     expiry < utcnow →
     run = (Val false, with_sessions (delete token (ADMIN_SESSIONS σ)) σ) ∧
     ADMIN_SESSIONS run.2 !! token = None ∧ run.2 ≠ σ) ∧
  (∀ expiry, header ≠ "" → recorded_expiry σ token = Some expiry →
     utcnow ≤ expiry → run = (Val true, σ)) ∧
  (run.2 ≠ σ →
     header ≠ "" ∧
     ∃ expiry, recorded_expiry σ token = Some expiry ∧ expiry < utcnow).
Proof.
  intros token run. subst run. rewrite validate_admin_token_run. fold token.
  split; [apply strip_bearer_prefixed|].
  split; [apply strip_bearer_raw|].
  split; [by intros ->|].
  split.
  { intros Hnone. unfold recorded_expiry. rewrite Hnone. simpl.
    by destruct (String.eqb header ""). }
  split.
  { intros expiry Hne Hexp Hpast. rewrite Hexp.
    apply String.eqb_neq in Hne. rewrite Hne.
    apply Z.ltb_lt in Hpast. rewrite Hpast. simpl.
    split; [done|]. split; [apply lookup_delete_eq|].
    unfold recorded_expiry in Hexp.
    destruct (ADMIN_SESSIONS σ !! token) as [expiry_iso|] eqn:Hin; [|done].
    by eapply delete_session_changes. }
  split.
  { intros expiry Hne Hexp Hfuture. rewrite Hexp.
    apply String.eqb_neq in Hne. rewrite Hne.
    apply Z.ltb_ge in Hfuture. by rewrite Hfuture. }
  destruct (String.eqb header "") eqn:Hempty; [done|].
  apply String.eqb_neq in Hempty.
  destruct (recorded_expiry σ token) as [expiry|]; [|done].
  destruct (expiry <? utcnow) eqn:Hpast; [|done].
  apply Z.ltb_lt in Hpast. eauto.
Qed.
End SessionManager.

Lemma validate_admin_token_spec_witness :
  @_validate_admin_token Calendar.calendar (Some "") Example.eight Example.logged_in
    = (Val false, Example.logged_in) ∧
  @_validate_admin_token Calendar.calendar
    (Some "Bearer 00000000000000000000000000000000") Example.eight Example.logged_in
    = (Val false, Example.logged_in) ∧
  @_validate_admin_token Calendar.calendar
    (Some ("Bearer " +:+ Example.token)) (Example.eight + 1) Example.logged_in
    = (Val false, initial_state) ∧
  @_validate_admin_token Calendar.calendar
    (Some Example.token) (Example.eight + 1) Example.logged_in
    = (Val false, initial_state) ∧
  @_validate_admin_token Calendar.calendar
    (Some ("Bearer " +:+ Example.token)) Example.eight Example.logged_in
    = (Val true, Example.logged_in) ∧
  @_validate_admin_token Calendar.calendar
    (Some Example.token) Example.eight Example.logged_in
    = (Val true, Example.logged_in).
Proof.
  split; [|split; [|split; [|split; [|split]]]].
  - by apply (@validate_admin_token_spec Calendar.calendar
                "" Example.eight Example.logged_in).
  - apply (@validate_admin_token_spec Calendar.calendar
             "Bearer 00000000000000000000000000000000"
             Example.eight Example.logged_in).
    vm_compute. reflexivity.
  - destruct (@validate_admin_token_spec Calendar.calendar
                ("Bearer " +:+ Example.token) (Example.eight + 1) Example.logged_in)
      as (_ & _ & _ & _ & Hexpired & _).
    destruct (Hexpired Example.eight) as (Hrun & _);
      [discriminate | vm_compute; reflexivity | vm_compute; reflexivity |].
    rewrite Hrun. vm_compute. reflexivity.
  - destruct (@validate_admin_token_spec Calendar.calendar
                Example.token (Example.eight + 1) Example.logged_in)
      as (_ & _ & _ & _ & Hexpired & _).
    destruct (Hexpired Example.eight) as (Hrun & _);
      [discriminate | vm_compute; reflexivity | vm_compute; reflexivity |].
    rewrite Hrun. vm_compute. reflexivity.
  - destruct (@validate_admin_token_spec Calendar.calendar
                ("Bearer " +:+ Example.token) Example.eight Example.logged_in)
      as (_ & _ & _ & _ & _ & Hvalid & _).
    apply (Hvalid Example.eight);
      [discriminate | vm_compute; reflexivity | vm_compute; discriminate].
  - destruct (@validate_admin_token_spec Calendar.calendar
                Example.token Example.eight Example.logged_in)
      as (_ & _ & _ & _ & _ & Hvalid & _).
    apply (Hvalid Example.eight);
      [discriminate | vm_compute; reflexivity | vm_compute; discriminate].
Defined.

(** ** Unregistering *)

Lemma list_remove_first_elem (email : string) (l : list string) :
  email ∈ l →
  ∃ before after,
    l = before ++ (email :: after) ∧ (email ∉ before) ∧
    list_remove_first email l = Some (before ++ after).
Proof.
  induction l as [|x l IH]; intros Hin; [by apply elem_of_nil in Hin|].
  simpl. destruct (decide (x = email)) as [->|Hne].
  - exists [], l. repeat split. apply not_elem_of_nil.
  - apply elem_of_cons in Hin as [->|Hin]; [done|].
    destruct (IH Hin) as (before & after & -> & Hfirst & ->).
    exists (x :: before), after. repeat split.
    intros Hb. apply elem_of_cons in Hb as [->|Hb]; [done|]. by apply Hfirst.
Qed.

Lemma alter_as_insert (acts : gmap string Activity) (k : string)
    (f : Activity → Activity) (a : Activity) :
  acts !! k = Some a → alter f k acts = <[k := f a]> acts.
Proof.
  intros Ha. apply map_eq. intros j. destruct (decide (k = j)) as [->|Hne].
  - by rewrite lookup_alter_eq, lookup_insert_eq, Ha.
  - by rewrite lookup_alter_ne, lookup_insert_ne.
Qed.

Section Unregister.
Context `{Datetime}.

Lemma require_admin_run (authorization : option string) (utcnow : Z) (σ : State) :
  require_admin authorization utcnow σ =
  if session_valid σ (default "" authorization) utcnow
  then (Val tt, σ)
  else (Raise (HTTPException 401 "Admin authentication required"),
        (_validate_admin_token (Some (default "" authorization)) utcnow σ).2).
Proof.
  unfold require_admin, mbind, M_bind.
  pose proof (validate_admin_token_valid (default "" authorization) utcnow σ) as Hv.
  destruct (session_valid σ (default "" authorization) utcnow) eqn:Hok.
  - by rewrite validate_admin_token_true.
  - destruct (_validate_admin_token _ utcnow σ) as [r σ']. simpl in *. by subst r.
Qed.

(** The whole handler as a decision tree over the state it starts in. *)
Lemma unregister_run (activity_name email : string)
    (authorization : option string) (utcnow : Z) (σ : State) :
  unregister_from_activity activity_name email authorization utcnow σ =
  if session_valid σ (default "" authorization) utcnow then
    match activities σ !! activity_name with
    | None => (Raise (HTTPException 404 "Activity not found"), σ)
    | Some a =>
        if decide (email ∈ participants a) then
          match list_remove_first email (participants a) with
          | Some ps =>
              (Val (JDict [("message",
                 JStr ("Unregistered " +:+ email +:+ " from " +:+ activity_name))]),
               with_activities
                 (<[activity_name := with_participants ps a]> (activities σ)) σ)
          | None => (Raise ValueError, σ)
          end
        else (Raise (HTTPException 400
                       "Student is not signed up for this activity"), σ)
    end
  else (Raise (HTTPException 401 "Admin authentication required"),
        (_validate_admin_token (Some (default "" authorization)) utcnow σ).2).
Proof.
  unfold unregister_from_activity.
  unfold mbind at 1. unfold M_bind at 1. rewrite require_admin_run.
  destruct (session_valid σ (default "" authorization) utcnow); [|done].
  run. destruct (activities σ !! activity_name) as [a|] eqn:Ha; [|done].
  destruct (decide (email ∈ participants a)); [|done].
  destruct (list_remove_first email (participants a)) as [ps|]; [|done].
  by erewrite alter_as_insert.
Qed.

(** C2: unregister asks for a valid admin token first and fails with 401
    when the header is missing or does not name a live session; with a
    valid token it fails with 404 for an unknown activity, with 400 for an
    email that is not on the activity's list, and otherwise takes the
    email out of the list and answers 200 with the confirmation message. *)
Theorem unregister_from_activity_spec (activity_name email : string)
    (authorization : option string) (utcnow : Z) (σ : State) :
  let header := default "" authorization in
  let r := (unregister_from_activity activity_name email authorization utcnow σ).1 in
  let σ' := (unregister_from_activity activity_name email authorization utcnow σ).2 in
  (authorization = None → status r = 401) ∧
  (session_valid σ header utcnow = false →
     r = Raise (HTTPException 401 "Admin authentication required") ∧
     status r = 401) ∧
  (session_valid σ header utcnow = true →
     (activities σ !! activity_name = None →
        r = Raise (HTTPException 404 "Activity not found") ∧ status r = 404) ∧
     (∀ a, activities σ !! activity_name = Some a → email ∉ participants a →
        r = Raise (HTTPException 400
                     "Student is not signed up for this activity") ∧
        status r = 400) ∧
     (∀ a, activities σ !! activity_name = Some a → email ∈ participants a →
        r = Val (JDict [("message",
               JStr ("Unregistered " +:+ email +:+ " from " +:+ activity_name))]) ∧
        status r = 200 ∧
        ∃ a' before after,
          activities σ' !! activity_name = Some a' ∧
          participants a = before ++ (email :: after) ∧
          (email ∉ before) ∧
          participants a' = before ++ after ∧
          (NoDup (participants a) → email ∉ participants a'))).
Proof.
  intros header r σ'. subst r σ' header. rewrite unregister_run.
  split; [by intros ->|].
  split; [by intros ->|].
  intros ->. split; [by intros ->|]. split.
  - intros a -> Hout. by destruct (decide (email ∈ participants a)).
  - intros a -> Hin. destruct (decide (email ∈ participants a)); [|done].
    destruct (list_remove_first_elem email (participants a) Hin)
      as (before & after & Hsplit & Hfirst & ->).
    simpl. repeat split. rewrite lookup_insert_eq.
    eexists _, before, after. repeat split; [done..|].
    simpl. rewrite Hsplit. intros Hnodup Hagain.
    apply NoDup_app in Hnodup as (_ & _ & [Hlast _]%NoDup_cons).
    apply elem_of_app in Hagain as [?|?]; done.
Qed.
End Unregister.

Lemma unregister_from_activity_spec_witness :
  status (@unregister_from_activity Calendar.calendar
            "Chess Club" "michael@mergington.edu" None
            Example.four Example.logged_in).1 = 401 ∧
  status (@unregister_from_activity Calendar.calendar
            "Chess Club" "michael@mergington.edu" (Some "Bearer garbage")
            Example.four Example.logged_in).1 = 401 ∧
  status (@unregister_from_activity Calendar.calendar
            "Sailing" "michael@mergington.edu" Example.bearer
            Example.four Example.logged_in).1 = 404 ∧
  status (@unregister_from_activity Calendar.calendar
            "Chess Club" "emma@mergington.edu" Example.bearer
            Example.four Example.logged_in).1 = 400 ∧
  status (@unregister_from_activity Calendar.calendar
            "Chess Club" "michael@mergington.edu" Example.bearer
            Example.four Example.logged_in).1 = 200 ∧
  ∃ a', activities
          (@unregister_from_activity Calendar.calendar
             "Chess Club" "michael@mergington.edu" Example.bearer
             Example.four Example.logged_in).2 !! "Chess Club" = Some a' ∧
        "michael@mergington.edu" ∉ participants a'.
Proof.
  assert (@session_valid Calendar.calendar Example.logged_in
            (default "" Example.bearer) Example.four = true) as Hsession
    by (vm_compute; reflexivity).
  assert (activities Example.logged_in !! "Chess Club" = Some Example.chess_club)
    as Hchess by (vm_compute; reflexivity).
  split; [|split; [|split; [|split]]].
  - by apply (@unregister_from_activity_spec Calendar.calendar
                "Chess Club" "michael@mergington.edu" None
                Example.four Example.logged_in).
  - apply (@unregister_from_activity_spec Calendar.calendar
             "Chess Club" "michael@mergington.edu" (Some "Bearer garbage")
             Example.four Example.logged_in).
    vm_compute. reflexivity.
  - destruct (@unregister_from_activity_spec Calendar.calendar
                "Sailing" "michael@mergington.edu" Example.bearer
                Example.four Example.logged_in) as (_ & _ & Hvalid).
    destruct (Hvalid Hsession) as (Hunknown & _).
    apply Hunknown. vm_compute. reflexivity.
  - destruct (@unregister_from_activity_spec Calendar.calendar
                "Chess Club" "emma@mergington.edu" Example.bearer
                Example.four Example.logged_in) as (_ & _ & Hvalid).
    destruct (Hvalid Hsession) as (_ & Habsent & _).
    apply (Habsent Example.chess_club Hchess).
    apply (bool_decide_unpack _). vm_compute. exact I.
  - destruct (@unregister_from_activity_spec Calendar.calendar
                "Chess Club" "michael@mergington.edu" Example.bearer
                Example.four Example.logged_in) as (_ & _ & Hvalid).
    destruct (Hvalid Hsession) as (_ & _ & Hpresent).
    destruct (Hpresent Example.chess_club Hchess)
      as (_ & Hstatus & a' & before & after & Ha' & _ & _ & _ & Hgone).
    { apply (bool_decide_unpack _). vm_compute. exact I. }
    split; [exact Hstatus|]. exists a'. split; [exact Ha'|].
    apply Hgone. apply (bool_decide_unpack _). vm_compute. exact I.
Defined.

(** ** Error paths and frame *)

Section Mutations.
Context `{Datetime}.

Lemma signup_run (activity_name email : string) (σ : State) :
  signup_for_activity activity_name email σ =
  match activities σ !! activity_name with
  | None => (Raise (HTTPException 404 "Activity not found"), σ)
  | Some a =>
      if decide (email ∈ participants a)
      then (Raise (HTTPException 400 "Student is already signed up"), σ)
      else (Val (JDict [("message",
              JStr ("Signed up " +:+ email +:+ " for " +:+ activity_name))]),
            with_activities
              (<[activity_name := with_participants (participants a ++ [email]) a]>
                 (activities σ)) σ)
  end.
Proof.
  destruct (activities σ !! activity_name) as [a|] eqn:Ha.
  - destruct (decide (email ∈ participants a)).
    + by eapply signup_conflict.
    + by eapply signup_ok.
  - by apply signup_not_found.
Qed.

(** C6: a failed mutation changes no participants list.  A signup that
    answers 400 or 404 leaves the whole state as it was, and an unregister
    that answers 400, 404 or 401 leaves the activity map, hence every
    participants list, as it was. *)
Theorem failed_mutations_atomic (activity_name email : string)
    (authorization : option string) (utcnow : Z) (σ : State) :
  let s := signup_for_activity activity_name email σ in
  let u := unregister_from_activity activity_name email authorization utcnow σ in
  (status s.1 = 400 ∨ status s.1 = 404 → s.2 = σ) ∧
  (status u.1 = 400 ∨ status u.1 = 404 ∨ status u.1 = 401 →
     activities u.2 = activities σ ∧
     ∀ name a, activities σ !! name = Some a →
       ∃ a', activities u.2 !! name = Some a' ∧
             participants a' = participants a).
Proof.
  intros s u. subst s u. split.
  - rewrite signup_run.
    destruct (activities σ !! activity_name) as [a|]; [|done].
    destruct (decide (email ∈ participants a)); [done|].
    simpl. unfold status. simpl. intros [?|?]; discriminate.
  - intros Hfail.
    assert (activities
              (unregister_from_activity activity_name email authorization utcnow σ).2
            = activities σ) as Hsame.
    { revert Hfail. rewrite unregister_run.
      destruct (session_valid σ (default "" authorization) utcnow).
      - destruct (activities σ !! activity_name) as [a|]; [|done].
        destruct (decide (email ∈ participants a)); [|done].
        destruct (list_remove_first email (participants a)); [|done].
        unfold status. simpl. intros [?|[?|?]]; discriminate.
      - intros _. apply validate_admin_token_activities. }
    split; [exact Hsame|]. intros name a Ha. rewrite Hsame. eauto.
Qed.
End Mutations.

Lemma failed_mutations_atomic_witness :
  (signup_for_activity "Chess Club" "daniel@mergington.edu" Example.logged_in).2
    = Example.logged_in ∧
  (signup_for_activity "Sailing" "daniel@mergington.edu" Example.logged_in).2
    = Example.logged_in ∧
  activities (@unregister_from_activity Calendar.calendar
                "Chess Club" "emma@mergington.edu" Example.bearer
                Example.four Example.logged_in).2
    = activities Example.logged_in ∧
  activities (@unregister_from_activity Calendar.calendar
                "Sailing" "michael@mergington.edu" Example.bearer
                Example.four Example.logged_in).2
    = activities Example.logged_in ∧
  activities (@unregister_from_activity Calendar.calendar
                "Chess Club" "michael@mergington.edu" Example.bearer
                Example.nine Example.logged_in).2
    = activities Example.logged_in.
Proof.
  split; [|split; [|split; [|split]]].
  - apply (@failed_mutations_atomic Calendar.calendar
             "Chess Club" "daniel@mergington.edu" None 0 Example.logged_in).
    left. vm_compute. reflexivity.
  - apply (@failed_mutations_atomic Calendar.calendar
             "Sailing" "daniel@mergington.edu" None 0 Example.logged_in).
    right. vm_compute. reflexivity.
  - apply (@failed_mutations_atomic Calendar.calendar
             "Chess Club" "emma@mergington.edu" Example.bearer
             Example.four Example.logged_in).
    left. vm_compute. reflexivity.
  - apply (@failed_mutations_atomic Calendar.calendar
             "Sailing" "michael@mergington.edu" Example.bearer
             Example.four Example.logged_in).
    right. left. vm_compute. reflexivity.
  - apply (@failed_mutations_atomic Calendar.calendar
             "Chess Club" "michael@mergington.edu" Example.bearer
             Example.nine Example.logged_in).
    right. right. vm_compute. reflexivity.
Defined.

Section Frame.
Context `{Datetime}.

Lemma insert_only_roster (activity_name : string) (σ : State) (a : Activity)
    (ps : list string) :
  activities σ !! activity_name = Some a →
  only_roster_changed activity_name σ
    (with_activities
       (<[activity_name := with_participants ps a]> (activities σ)) σ).
Proof.
  intros Ha. split; [done|]. split.
  - intros other Hne. simpl. by rewrite lookup_insert_ne.
  - exists a, (with_participants ps a). simpl.
    by rewrite lookup_insert_eq.
Qed.

(** C10: a successful signup or unregister changes only the participants
    list of the named activity.  Its description, schedule and
    max_participants, every other activity's record and the session table
    are as before. *)
Theorem successful_mutations_frame (activity_name email : string)
    (authorization : option string) (utcnow : Z) (σ : State) :
  let s := signup_for_activity activity_name email σ in
  let u := unregister_from_activity activity_name email authorization utcnow σ in
  (status s.1 = 200 → only_roster_changed activity_name σ s.2) ∧
  (status u.1 = 200 → only_roster_changed activity_name σ u.2).
Proof.
  intros s u. subst s u. split.
  - rewrite signup_run.
    destruct (activities σ !! activity_name) as [a|] eqn:Ha; [|done].
    destruct (decide (email ∈ participants a)); [done|].
    intros _. by apply insert_only_roster.
  - rewrite unregister_run.
    destruct (session_valid σ (default "" authorization) utcnow); [|done].
    destruct (activities σ !! activity_name) as [a|] eqn:Ha; [|done].
    destruct (decide (email ∈ participants a)); [|done].
    destruct (list_remove_first email (participants a)); [|done].
    intros _. by apply insert_only_roster.
Qed.
End Frame.

Lemma successful_mutations_frame_witness :
  only_roster_changed "Chess Club" Example.logged_in
    (signup_for_activity "Chess Club" "emma@mergington.edu" Example.logged_in).2 ∧
  only_roster_changed "Chess Club" Example.logged_in
    (@unregister_from_activity Calendar.calendar
       "Chess Club" "michael@mergington.edu" Example.bearer
       Example.four Example.logged_in).2.
Proof.
  split.
  - apply (@successful_mutations_frame Calendar.calendar
             "Chess Club" "emma@mergington.edu" None 0 Example.logged_in).
    vm_compute. reflexivity.
  - apply (@successful_mutations_frame Calendar.calendar
             "Chess Club" "michael@mergington.edu" Example.bearer
             Example.four Example.logged_in).
    vm_compute. reflexivity.
Defined.

(** ** Login *)

Lemma py_eq_str (s t : string) : py_eq (JStr s) (JStr t) = true ↔ s = t.
Proof. simpl. apply String.eqb_eq. Qed.

Section Login.
Context `{Datetime}.

Lemma cred_matches_strings (u p u' p' : string) :
  cred_matches (JStr u) (JStr p)
    (JDict [("username", JStr u'); ("password", JStr p')]) = true
  ↔ u' = u ∧ p' = p.
Proof.
  unfold cred_matches. change (items_get "username" _) with (Some (JStr u')).
  change (items_get "password" _) with (Some (JStr p')). simpl.
  rewrite andb_true_iff, !String.eqb_eq. done.
Qed.

Lemma create_admin_token_run (uuid4_hex : string) (utcnow : Z) (σ : State) :
  _create_admin_token uuid4_hex utcnow σ =
  if representable (utcnow + hours 8)
  then (Val uuid4_hex,
        with_sessions
          (<[uuid4_hex := isoformat (utcnow + hours 8)]> (ADMIN_SESSIONS σ)) σ)
  else (Raise OverflowError, σ).
Proof.
  unfold _create_admin_token, datetime_add, lift_res, mbind, M_bind.
  by destruct (representable (utcnow + hours 8)).
Qed.

(** The last two lines of the loop body, once an entry has matched. *)
Lemma grant_run (uuid4_hex : string) (utcnow : Z) (σ : State) :
  (token ← _create_admin_token uuid4_hex utcnow;
   mret (JDict [("token", JStr token); ("expires_in_hours", JInt 8)])) σ
  = session_granted uuid4_hex utcnow σ.
Proof.
  unfold mbind, M_bind, session_granted. rewrite create_admin_token_run.
  by destruct (representable (utcnow + hours 8)).
Qed.

(** The scan stops at the first matching entry and records one session. *)
Lemma scan_teachers_run (teachers : list json) (username password : json)
    (uuid4_hex : string) (utcnow : Z) (σ : State) :
  forallb is_dict teachers = true →
  scan_teachers teachers username password uuid4_hex utcnow σ =
  if existsb (cred_matches username password) teachers
  then session_granted uuid4_hex utcnow σ
  else (Raise (HTTPException 401 "Invalid credentials"), σ).
Proof.
  induction teachers as [|t rest IH]; intros Hdicts; [done|].
  simpl in Hdicts. apply andb_prop in Hdicts as [Ht Hrest].
  destruct t as [| | | | |items]; try discriminate Ht.
  cbn [scan_teachers existsb cred_matches py_get].
  unfold mbind at 1. unfold M_bind at 1. unfold mret at 1. unfold M_ret at 1.
  destruct (py_eq (default JNull (items_get "username" items)) username);
    [|by apply IH].
  unfold mbind at 1. unfold M_bind at 1. unfold mret at 1. unfold M_ret at 1.
  destruct (py_eq (default JNull (items_get "password" items)) password);
    [apply grant_run|by apply IH].
Qed.

Lemma admin_login_run (items : list (string * json)) (teachers : list json)
    (credentials : list (string * json)) (uuid4_hex : string) (utcnow : Z)
    (σ : State) :
  default (JList []) (items_get "teachers" items) = JList teachers →
  forallb is_dict teachers = true →
  admin_login (JDict items) credentials uuid4_hex utcnow σ =
  let username := default JNull (items_get "username" credentials) in
  let password := default JNull (items_get "password" credentials) in
  if negb (truthy username) || negb (truthy password)
  then (Raise (HTTPException 400 "username and password required"), σ)
  else if existsb (cred_matches username password) teachers
  then session_granted uuid4_hex utcnow σ
  else (Raise (HTTPException 401 "Invalid credentials"), σ).
Proof.
  intros Hteachers Hdicts. unfold admin_login. cbv zeta.
  destruct (negb (truthy _) || negb (truthy _)); [done|].
  unfold py_get, mbind, M_bind, mret, M_ret. rewrite Hteachers.
  cbn [py_iter]. unfold mret, M_ret. by apply scan_teachers_run.
Qed.

End Login.

(** A body whose username is present but empty is answered 400 before any
    credential is looked at. *)
Lemma admin_login_empty_username :
  let body := [("username", JStr ""); ("password", JStr "chalk-and-talk")] in
  items_get "username" body = Some (JStr "") ∧
  items_get "password" body = Some (JStr "chalk-and-talk") ∧
  @admin_login Calendar.calendar Example.creds body Example.token
    Example.midnight initial_state
  = (Raise (HTTPException 400 "username and password required"), initial_state).
Proof. repeat split. Qed.



(** ** Logout *)

Lemma with_sessions_same (σ : State) : with_sessions (ADMIN_SESSIONS σ) σ = σ.
Proof. by destruct σ. Qed.

Lemma admin_logout_run (authorization : option string) (σ : State) :
  admin_logout authorization σ =
  match authorization with
  | None => (Raise (HTTPException 400 "Authorization header required"), σ)
  | Some header =>
      if String.eqb header ""
      then (Raise (HTTPException 400 "Authorization header required"), σ)
      else (Val (JDict [("detail", JStr "logged out")]),
            with_sessions (delete (strip_bearer header) (ADMIN_SESSIONS σ)) σ)
  end.
Proof.
  unfold admin_logout. destruct authorization as [header|]; [|done].
  destruct (String.eqb header ""); [done|].
  unfold mbind, M_bind. by rewrite bearer_token_strip.
Qed.

(** C8, amended: logout answers 400 exactly when the Authorization header
    is absent or empty.  Otherwise it strips the optional ["Bearer "]
    prefix, removes the token from the session table when it is there, and
    answers 200; a token that is not in the table is no error and leaves
    the state as it was, and a second logout with the same header gives the
    same answer and the same final state as the first. *)
Theorem admin_logout_spec (authorization : option string) (σ : State) :
  let run := admin_logout authorization σ in
  (status run.1 = 400 ↔ authorization = None ∨ authorization = Some "") ∧
  (authorization = None ∨ authorization = Some "" →
     run = (Raise (HTTPException 400 "Authorization header required"), σ)) ∧
  (∀ header, authorization = Some header → header ≠ "" →
     let token := strip_bearer header in
     run = (Val (JDict [("detail", JStr "logged out")]),
            with_sessions (delete token (ADMIN_SESSIONS σ)) σ) ∧
     status run.1 = 200 ∧
     ADMIN_SESSIONS run.2 !! token = None ∧
     (∀ other, other ≠ token →
        ADMIN_SESSIONS run.2 !! other = ADMIN_SESSIONS σ !! other) ∧
     activities run.2 = activities σ ∧
     (ADMIN_SESSIONS σ !! token = None → run.2 = σ) ∧
     admin_logout authorization run.2 = run).
Proof.
  intros run. subst run. split; [|split].
  - rewrite admin_logout_run. destruct authorization as [header|].
    + destruct (String.eqb header "") eqn:Hempty.
      * apply String.eqb_eq in Hempty as ->. naive_solver.
      * apply String.eqb_neq in Hempty. split; [done|].
        intros [?|[=]]; done.
    + naive_solver.
  - rewrite admin_logout_run. by intros [-> | ->].
  - intros header -> Hne token. rewrite !admin_logout_run.
    apply String.eqb_neq in Hne. rewrite Hne. fold token. simpl.
    split; [done|]. split; [done|].
    split; [apply lookup_delete_eq|].
    split; [by intros other Hother; apply lookup_delete_ne|].
    split; [done|]. split.
    + intros Habsent. rewrite delete_id by done. apply with_sessions_same.
    + rewrite delete_delete_eq. reflexivity.
Qed.

(** The logout sentence read literally fails: an Authorization header that
    is present with an empty value is answered 400 as well. *)
Lemma logout_as_stated_fails : ¬ logout_as_stated.
Proof.
  intros Hclaim. destruct (Hclaim (Some "") initial_state) as [Hpresent _].
  discriminate Hpresent. reflexivity.
Qed.

Lemma admin_logout_empty_header :
  admin_logout (Some "") initial_state
  = (Raise (HTTPException 400 "Authorization header required"), initial_state).
Proof. reflexivity. Qed.

Lemma admin_logout_spec_witness :
  admin_logout None Example.logged_in
    = (Raise (HTTPException 400 "Authorization header required"),
       Example.logged_in) ∧
  (admin_logout Example.bearer Example.logged_in).2 = initial_state ∧
  (admin_logout (Some Example.token) Example.logged_in).2 = initial_state ∧
  (admin_logout Example.bearer initial_state).2 = initial_state ∧
  admin_logout Example.bearer (admin_logout Example.bearer Example.logged_in).2
    = admin_logout Example.bearer Example.logged_in.
Proof.
  split; [|split; [|split; [|split]]].
  - apply (admin_logout_spec None Example.logged_in). by left.
  - destruct (admin_logout_spec Example.bearer Example.logged_in) as (_ & _ & Hout).
    destruct (Hout ("Bearer " +:+ Example.token) eq_refl) as (Hrun & _);
      [discriminate|].
    rewrite Hrun. vm_compute. reflexivity.
  - destruct (admin_logout_spec (Some Example.token) Example.logged_in)
      as (_ & _ & Hout).
    destruct (Hout Example.token eq_refl) as (Hrun & _); [discriminate|].
    rewrite Hrun. vm_compute. reflexivity.
  - destruct (admin_logout_spec Example.bearer initial_state) as (_ & _ & Hout).
    destruct (Hout ("Bearer " +:+ Example.token) eq_refl)
      as (_ & _ & _ & _ & _ & Habsent & _); [discriminate|].
    apply Habsent. vm_compute. reflexivity.
  - destruct (admin_logout_spec Example.bearer Example.logged_in) as (_ & _ & Hout).
    destruct (Hout ("Bearer " +:+ Example.token) eq_refl)
      as (_ & _ & _ & _ & _ & _ & Hagain); [discriminate|].
    exact Hagain.
Defined.

(** ** Credential loading *)

Section Loader.
Context `{Datetime}.


End Loader.


(** Content that parses but is not an object is kept as loaded; a login
    then ends in an [AttributeError], not in an answer of the handler. *)
Lemma load_TEACHER_CREDS_wrong_shape :
  load_TEACHER_CREDS true (Val (JList [])) = Val (JList []) ∧
  (@admin_login Calendar.calendar (JList []) Example.body Example.token
     Example.midnight initial_state).1 = Raise AttributeError.
Proof. split; reflexivity. Qed.

(** ** Reachable states *)

Lemma initial_participants_distinct (name : string) (a : Activity) :
  initial_activities !! name = Some a → NoDup (participants a).
Proof.
  intros Ha. apply elem_of_list_to_map_2 in Ha.
  repeat (apply elem_of_cons in Ha as [Ha|Ha];
          [injection Ha as -> ->;
           apply (bool_decide_unpack _); vm_compute; exact I|]).
  by apply elem_of_nil in Ha.
Qed.

Section Reachable.
Context `{Datetime}.
Variable TEACHER_CREDS : json.

Lemma scan_teachers_activities (teachers : list json) (username password : json)
    (uuid4_hex : string) (utcnow : Z) (σ : State) :
  activities (scan_teachers teachers username password uuid4_hex utcnow σ).2
  = activities σ.
Proof.
  induction teachers as [|t rest IH]; [done|].
  cbn [scan_teachers]. unfold mbind, M_bind.
  destruct t as [| | | | |items]; try done.
  cbn [py_get]. unfold mret at 1. unfold M_ret at 1.
  destruct (py_eq _ username); [|exact IH].
  unfold mret at 1. unfold M_ret at 1.
  destruct (py_eq _ password); [|exact IH].
  rewrite create_admin_token_run. by destruct (representable _).
Qed.

Lemma admin_login_activities (credentials : list (string * json))
    (uuid4_hex : string) (utcnow : Z) (σ : State) :
  activities (admin_login TEACHER_CREDS credentials uuid4_hex utcnow σ).2
  = activities σ.
Proof.
  unfold admin_login. cbv zeta.
  destruct (negb (truthy _) || negb (truthy _)); [done|].
  unfold mbind, M_bind.
  destruct TEACHER_CREDS as [| | | | |items]; try done.
  cbn [py_get]. unfold mret at 1. unfold M_ret at 1.
  destruct (default (JList []) (items_get "teachers" items)); try done;
    cbn [py_iter]; unfold mret at 1; unfold M_ret at 1;
    apply scan_teachers_activities.
Qed.

Lemma admin_logout_activities (authorization : option string) (σ : State) :
  activities (admin_logout authorization σ).2 = activities σ.
Proof.
  rewrite admin_logout_run. destruct authorization as [header|]; [|done].
  by destruct (String.eqb header "").
Qed.

(** What a signup does to the entry stored under [name]. *)
Lemma signup_roster (activity_name email : string) (σ : State) (name : string) :
  match activities σ !! name with
  | Some a =>
      ∃ a', activities (signup_for_activity activity_name email σ).2 !! name
            = Some a' ∧
            (participants a' = participants a ∨
             (name = activity_name ∧ (email ∉ participants a) ∧
              participants a' = participants a ++ [email]))
  | None =>
      activities (signup_for_activity activity_name email σ).2 !! name = None
  end.
Proof.
  rewrite signup_run.
  destruct (activities σ !! activity_name) as [b|] eqn:Hb.
  - destruct (decide (email ∈ participants b)) as [Hin|Hout].
    + simpl. destruct (activities σ !! name); eauto.
    + simpl. destruct (decide (activity_name = name)) as [->|Hne].
      * rewrite Hb, lookup_insert_eq. eexists. split; [done|].
        right. by repeat split.
      * rewrite lookup_insert_ne by done.
        destruct (activities σ !! name); eauto.
  - simpl. destruct (activities σ !! name); eauto.
Qed.

(** What an unregister does to the entry stored under [name]. *)
Lemma unregister_roster (activity_name email : string)
    (authorization : option string) (utcnow : Z) (σ : State) (name : string) :
  match activities σ !! name with
  | Some a =>
      ∃ a', activities (unregister_from_activity activity_name email
                          authorization utcnow σ).2 !! name = Some a' ∧
            (participants a' = participants a ∨
             (name = activity_name ∧
              ∃ before after,
                participants a = before ++ email :: after ∧
                (email ∉ before) ∧
                participants a' = before ++ after))
  | None =>
      activities (unregister_from_activity activity_name email
                    authorization utcnow σ).2 !! name = None
  end.
Proof.
  rewrite unregister_run.
  destruct (session_valid σ (default "" authorization) utcnow).
  - destruct (activities σ !! activity_name) as [b|] eqn:Hb;
      [|simpl; destruct (activities σ !! name); eauto].
    destruct (decide (email ∈ participants b)) as [Hin|Hout];
      [|simpl; destruct (activities σ !! name); eauto].
    destruct (list_remove_first_elem email (participants b) Hin)
      as (before & after & Hsplit & Hfirst & ->).
    simpl. destruct (decide (activity_name = name)) as [->|Hne].
    + rewrite Hb, lookup_insert_eq. eexists. split; [done|].
      right. split; [done|]. by exists before, after.
    + rewrite lookup_insert_ne by done.
      destruct (activities σ !! name); eauto.
  - cbn [snd]. rewrite validate_admin_token_activities.
    destruct (activities σ !! name); eauto.
Qed.

(** What any request does to the entry stored under [name]: the key stays,
    and its list makes one [roster_step]. *)
Lemma handle_roster (r : request) (uuid4_hex : string) (utcnow : Z)
    (σ : State) (name : string) :
  match activities σ !! name with
  | Some a =>
      ∃ a', activities (handle TEACHER_CREDS r uuid4_hex utcnow σ).2 !! name
            = Some a' ∧
            roster_step (participants a) (participants a')
  | None =>
      activities (handle TEACHER_CREDS r uuid4_hex utcnow σ).2 !! name = None
  end.
Proof.
  destruct r as [|activity_name email|activity_name email authorization
                |credentials|authorization]; cbn [handle].
  - unfold get_activities, mbind, M_bind, mret, M_ret, get_state. cbn [snd].
    destruct (activities σ !! name) as [a|]; [|done].
    exists a. split; [done|constructor].
  - pose proof (signup_roster activity_name email σ name) as Hstep.
    destruct (activities σ !! name) as [a|]; [|done].
    destruct Hstep as (a' & Ha' & [Hsame|(_ & Hout & Happ)]);
      exists a'; (split; [done|]).
    + rewrite Hsame. constructor.
    + rewrite Happ. by constructor.
  - pose proof (unregister_roster activity_name email authorization utcnow σ name)
      as Hstep.
    destruct (activities σ !! name) as [a|]; [|done].
    destruct Hstep as (a' & Ha' & [Hsame|(_ & before & after & Hsplit & Hfirst & Hrem)]);
      exists a'; (split; [done|]).
    + rewrite Hsame. constructor.
    + rewrite Hrem. by econstructor.
  - rewrite admin_login_activities.
    destruct (activities σ !! name) as [a|]; [|done].
    exists a. split; [done|constructor].
  - rewrite admin_logout_activities.
    destruct (activities σ !! name) as [a|]; [|done].
    exists a. split; [done|constructor].
Qed.

Lemma roster_step_distinct (old new : list string) :
  roster_step old new → NoDup old → NoDup new.
Proof.
  intros [|email Hout|email before after -> Hfirst] Hnodup; [done| |].
  - apply NoDup_app. split; [done|]. split; [|apply NoDup_singleton].
    intros x Hx Hx'. apply list_elem_of_singleton in Hx' as ->. done.
  - apply NoDup_app in Hnodup as (Hb1 & Hb2 & Hb3).
    apply NoDup_cons in Hb3 as [_ Hb3].
    apply NoDup_app. split; [done|]. split; [|done].
    intros x Hx Hx'. apply (Hb2 x Hx). by right.
Qed.

Lemma reachable_distinct (σ : State) :
  reachable TEACHER_CREDS σ →
  ∀ name a, activities σ !! name = Some a → NoDup (participants a).
Proof.
  induction 1 as [|σ r uuid4_hex utcnow Hreach IH]; intros name a' Ha'.
  - by eapply initial_participants_distinct.
  - pose proof (handle_roster r uuid4_hex utcnow σ name) as Hstep.
    destruct (activities σ !! name) as [a|] eqn:Ha; [|congruence].
    destruct Hstep as (a'' & Ha'' & Hroster).
    assert (a'' = a') as -> by congruence.
    eapply roster_step_distinct; [done|]. by eapply IH.
Qed.

Lemma serve_reachable (rs : list (request * string * Z)) (σ : State) :
  reachable TEACHER_CREDS σ → reachable TEACHER_CREDS (serve TEACHER_CREDS rs σ).
Proof.
  revert σ. induction rs as [|[[r uuid4_hex] utcnow] rest IH]; intros σ Hreach;
    [done|].
  cbn [serve]. apply IH. by constructor.
Qed.
End Reachable.

Section Invariants.
Context `{Datetime}.
Variable TEACHER_CREDS : json.

(** C9: in every state reached from the seed data, the emails of each
    participants list are pairwise distinct, and the list is in signup
    order: a request leaves a list as it is, or is a signup that puts its
    email at the end, or is an unregister that takes its email out and
    keeps the others in their order; no request adds or removes an
    activity. *)
Theorem participants_distinct_in_signup_order (σ : State) :
  reachable TEACHER_CREDS σ →
  (∀ name a, activities σ !! name = Some a → NoDup (participants a)) ∧
  (∀ r uuid4_hex utcnow name a, activities σ !! name = Some a →
     ∃ a', activities (handle TEACHER_CREDS r uuid4_hex utcnow σ).2 !! name
           = Some a' ∧
           roster_step (participants a) (participants a') ∧
           NoDup (participants a')) ∧
  (∀ activity_name email name a, activities σ !! name = Some a →
     ∃ a', activities (signup_for_activity activity_name email σ).2 !! name
           = Some a' ∧
           (participants a' = participants a ∨
            (name = activity_name ∧ (email ∉ participants a) ∧
             participants a' = participants a ++ [email]))) ∧
  (∀ activity_name email authorization utcnow name a,
     activities σ !! name = Some a →
     ∃ a', activities (unregister_from_activity activity_name email
                         authorization utcnow σ).2 !! name = Some a' ∧
           (participants a' = participants a ∨
            (name = activity_name ∧
             ∃ before after,
               participants a = before ++ email :: after ∧
               (email ∉ before) ∧ (email ∉ after) ∧
               participants a' = before ++ after))).
Proof.
  intros Hreach. pose proof (reachable_distinct TEACHER_CREDS σ Hreach) as Hdistinct.
  split; [exact Hdistinct|]. split; [|split].
  - intros r uuid4_hex utcnow name a Ha.
    pose proof (handle_roster TEACHER_CREDS r uuid4_hex utcnow σ name) as Hstep.
    rewrite Ha in Hstep. destruct Hstep as (a' & Ha' & Hroster).
    exists a'. split; [done|]. split; [done|].
    eapply roster_step_distinct; [done|]. by eapply Hdistinct.
  - intros activity_name email name a Ha.
    pose proof (signup_roster activity_name email σ name) as Hstep.
    by rewrite Ha in Hstep.
  - intros activity_name email authorization utcnow name a Ha.
    pose proof (unregister_roster activity_name email authorization utcnow σ name)
      as Hstep.
    rewrite Ha in Hstep.
    destruct Hstep as (a' & Ha' & [Hsame|(Hname & before & after & Hsplit & Hfirst & Hrem)]);
      exists a'; (split; [done|]); [by left|].
    right. split; [done|]. exists before, after.
    split; [done|]. split; [done|]. split; [|done].
    pose proof (Hdistinct name a Ha) as Hnodup. rewrite Hsplit in Hnodup.
    apply NoDup_app in Hnodup as (_ & _ & Hnodup).
    by apply NoDup_cons in Hnodup as [Hlast _].
Qed.

(** C3: signup has no capacity check.  For an existing activity and an
    email not yet on its list, signup succeeds and appends the email also
    when the list already has [max_participants] entries or more, so the
    list ends up longer than the capacity; and a state with such a list is
    reached from the seed data, no request refusing to build it. *)
Theorem signup_ignores_capacity (activity_name email : string) (σ : State)
    (a : Activity) :
  (activities σ !! activity_name = Some a →
   email ∉ participants a →
   max_participants a ≤ Z.of_nat (length (participants a)) →
   status (signup_for_activity activity_name email σ).1 = 200 ∧
   ∃ a', activities (signup_for_activity activity_name email σ).2
           !! activity_name = Some a' ∧
         participants a' = participants a ++ [email] ∧
         max_participants a' = max_participants a ∧
         max_participants a' < Z.of_nat (length (participants a'))) ∧
  (∃ σ' name b, reachable TEACHER_CREDS σ' ∧
     activities σ' !! name = Some b ∧
     max_participants b < Z.of_nat (length (participants b))).
Proof.
  split.
  - intros Ha Hout Hfull. erewrite signup_ok by done. split; [done|].
    cbn [snd activities with_activities]. rewrite lookup_insert_eq.
    eexists. split; [done|]. cbn [participants max_participants with_participants].
    rewrite length_app. cbn [length]. repeat split. lia.
  - exists (serve TEACHER_CREDS
              (Example.rush (Example.eight_students ++ ["jane@mergington.edu"]))
              initial_state), "Math Club".
    eexists. split; [apply serve_reachable; constructor|].
    split; [vm_compute; reflexivity|]. vm_compute. reflexivity.
Qed.
End Invariants.

Lemma participants_distinct_in_signup_order_witness :
  ∃ a, activities Example.after_morning !! "Chess Club" = Some a ∧
       participants a = ["daniel@mergington.edu"; "emma@mergington.edu"] ∧
       NoDup (participants a).
Proof.
  destruct (@participants_distinct_in_signup_order Calendar.calendar
              Example.creds Example.after_morning) as (Hdistinct & _).
  { apply serve_reachable. constructor. }
  eexists. split; [vm_compute; reflexivity|]. split; [reflexivity|].
  apply (Hdistinct "Chess Club"). vm_compute. reflexivity.
Defined.

Lemma signup_ignores_capacity_witness :
  status (signup_for_activity "Math Club" "jane@mergington.edu"
            Example.math_club_full).1 = 200 ∧
  ∃ a', activities (signup_for_activity "Math Club" "jane@mergington.edu"
                      Example.math_club_full).2 !! "Math Club" = Some a' ∧
        max_participants a' = 10 ∧
        length (participants a') = 11%nat.
Proof.
  pose (math_club :=
    with_participants
      (["james@mergington.edu"; "benjamin@mergington.edu"] ++ Example.eight_students)
      (seed "Solve challenging problems and participate in math competitions"
            "Tuesdays, 3:30 PM - 4:30 PM" 10
            "james@mergington.edu" "benjamin@mergington.edu")).
  destruct (@signup_ignores_capacity Calendar.calendar Example.creds
              "Math Club" "jane@mergington.edu" Example.math_club_full math_club)
    as (Hfull & _).
  destruct Hfull as (Hstatus & a' & Ha' & Hps & Hmax & _).
  - vm_compute. reflexivity.
  - apply (bool_decide_unpack _). vm_compute. exact I.
  - vm_compute. discriminate.
  - split; [exact Hstatus|]. exists a'. split; [exact Ha'|].
    split; [by rewrite Hmax|]. by rewrite Hps.
Defined.

(** ** The session table holds what login wrote *)

Section SessionTable.
Context `{Datetime}.
Variable TEACHER_CREDS : json.





End SessionTable.

(** ** The eight hours of a session *)

Section Lifetime.
Context `{Datetime}.

(** X12: a token created at [issued] is accepted, raw or behind
    ["Bearer "], up to and including [issued] plus eight hours, and is
    refused and evicted at any later instant, provided the ISO string of its
    expiry reads back as that expiry. *)
Lemma session_lifetime (uuid4_hex header : string) (issued utcnow : Z) (σ : State) :
  let σ' := (_create_admin_token uuid4_hex issued σ).2 in
  let run := _validate_admin_token (Some header) utcnow σ' in
  (_create_admin_token uuid4_hex issued σ).1 = Val uuid4_hex →
  fromisoformat (isoformat (issued + hours 8)) = Some (issued + hours 8) →
  isoformat (issued + hours 8) ≠ "" →
  header ≠ "" →
  strip_bearer header = uuid4_hex →
  (utcnow ≤ issued + hours 8 → run = (Val true, σ')) ∧
  (issued + hours 8 < utcnow →
     run = (Val false, with_sessions (delete uuid4_hex (ADMIN_SESSIONS σ)) σ)).
Proof.
  intros σ' run Hcreated Hread Hnonempty Hheader Htoken. subst run.
  assert (σ' = with_sessions
                 (<[uuid4_hex := isoformat (issued + hours 8)]> (ADMIN_SESSIONS σ)) σ)
    as Hσ'.
  { subst σ'. rewrite create_admin_token_run in *.
    by destruct (representable (issued + hours 8)). }
  clearbody σ'. subst σ'.
  rewrite validate_admin_token_run, Htoken.
  apply String.eqb_neq in Hheader. rewrite Hheader.
  apply String.eqb_neq in Hnonempty.
  unfold recorded_expiry. cbn [ADMIN_SESSIONS with_sessions activities].
  rewrite lookup_insert_eq. cbn [mbind option_bind].
  rewrite Hnonempty, Hread. split.
  - intros Hlive. apply Z.ltb_ge in Hlive. by rewrite Hlive.
  - intros Hpast. apply Z.ltb_lt in Hpast. rewrite Hpast.
    by rewrite delete_insert_eq.
Qed.
End Lifetime.

(** The calendar on a few instants, as Python prints them. *)
Lemma calendar_examples :
  Calendar.print 0 = "1970-01-01T00:00:00" ∧
  Calendar.print Example.midnight = "2024-01-01T00:00:00" ∧
  Calendar.print Example.eight = "2024-01-01T08:00:00" ∧
  Calendar.print 1709251199000005 = "2024-02-29T23:59:59.000005" ∧
  Calendar.read "2024-01-01T08:00:00" = Some Example.eight ∧
  Calendar.read "2024-02-29T23:59:59.000005" = Some 1709251199000005 ∧
  Calendar.read "2023-02-29T23:59:59" = None ∧
  Calendar.read "" = None ∧
  Calendar.print datetime_min = "0001-01-01T00:00:00" ∧
  Calendar.print datetime_max = "9999-12-31T23:59:59.999999".
Proof. repeat split. Qed.

Lemma session_lifetime_witness :
  @_validate_admin_token Calendar.calendar (Some ("Bearer " +:+ Example.token))
    Example.eight Example.logged_in = (Val true, Example.logged_in) ∧
  @_validate_admin_token Calendar.calendar (Some ("Bearer " +:+ Example.token))
    (Example.eight + 1) Example.logged_in = (Val false, initial_state).
Proof.
  destruct (@session_lifetime Calendar.calendar Example.token
              ("Bearer " +:+ Example.token) Example.midnight Example.eight
              initial_state eq_refl) as (Hlive & _); [done..|].
  destruct (@session_lifetime Calendar.calendar Example.token
              ("Bearer " +:+ Example.token) Example.midnight (Example.eight + 1)
              initial_state eq_refl) as (_ & Hpast); [done..|].
  split.
  - apply Hlive. vm_compute. discriminate.
  - exact (Hpast eq_refl).
Defined.

(** * Further properties of the handlers *)

(** ** Signing up again, and taking a signup back *)

Lemma list_remove_first_last (email : string) (l : list string) :
  email ∉ l → list_remove_first email (l ++ [email]) = Some l.
Proof.
  induction l as [|x l IH]; intros Hout.
  - simpl. by destruct (decide (email = email)).
  - apply not_elem_of_cons in Hout as [Hne Hout]. simpl.
    destruct (decide (x = email)) as [->|_]; [done|].
    by rewrite (IH Hout).
Qed.

Lemma with_participants_same (a : Activity) :
  with_participants (participants a) a = a.
Proof. by destruct a. Qed.

Lemma with_activities_same (σ : State) : with_activities (activities σ) σ = σ.
Proof. by destruct σ. Qed.

(** A signup that answers 200 started from an entry without the email. *)
Lemma signup_ok_inv (activity_name email : string) (σ : State) :
  status (signup_for_activity activity_name email σ).1 = 200 →
  ∃ a, activities σ !! activity_name = Some a ∧ email ∉ participants a.
Proof.
  rewrite signup_run.
  destruct (activities σ !! activity_name) as [a|]; [|done].
  destruct (decide (email ∈ participants a)); [done|]. eauto.
Qed.

(** X2: a repeated signup never succeeds and never changes anything: after
    any signup, the same signup again is answered 400 or 404 and leaves the
    state of the first; after a successful one it is answered 400 "Student
    is already signed up". *)
Theorem signup_twice (activity_name email : string) (σ : State) :
  let first := signup_for_activity activity_name email σ in
  let second := signup_for_activity activity_name email first.2 in
  second.2 = first.2 ∧
  (status second.1 = 400 ∨ status second.1 = 404) ∧
  (status first.1 = 200 →
     second.1 = Raise (HTTPException 400 "Student is already signed up")).
Proof.
  intros first second. subst second first. rewrite (signup_run _ _ σ).
  destruct (activities σ !! activity_name) as [a|] eqn:Ha.
  - destruct (decide (email ∈ participants a)) as [Hin|Hout]; cbn [fst snd].
    + erewrite signup_conflict by done. split; [done|]. split; [by left|done].
    + erewrite signup_conflict;
        [|cbn [activities with_activities]; apply lookup_insert_eq
         |cbn [participants with_participants]; apply elem_of_app; right;
          apply list_elem_of_singleton; reflexivity].
      split; [done|]. split; [by left|done].
  - cbn [fst snd]. rewrite signup_not_found by done.
    split; [done|]. split; [by right|done].
Qed.

Lemma signup_twice_witness :
  (signup_for_activity "Chess Club" "emma@mergington.edu"
     (signup_for_activity "Chess Club" "emma@mergington.edu" initial_state).2).1
  = Raise (HTTPException 400 "Student is already signed up").
Proof.
  apply (signup_twice "Chess Club" "emma@mergington.edu" initial_state).
  vm_compute. reflexivity.
Defined.

Section SignupUnregister.
Context `{Datetime}.
Variable TEACHER_CREDS : json.

Lemma session_valid_with_activities (acts : gmap string Activity) (σ : State)
    (header : string) (utcnow : Z) :
  session_valid (with_activities acts σ) header utcnow
  = session_valid σ header utcnow.
Proof. reflexivity. Qed.

(** An unregister that answers 200 had a live session and found the email. *)
Lemma unregister_ok_inv (activity_name email : string)
    (authorization : option string) (utcnow : Z) (σ : State) :
  status (unregister_from_activity activity_name email authorization utcnow σ).1
    = 200 →
  ∃ a before after,
    session_valid σ (default "" authorization) utcnow = true ∧
    activities σ !! activity_name = Some a ∧
    participants a = before ++ email :: after ∧
    (email ∉ before) ∧
    (unregister_from_activity activity_name email authorization utcnow σ).2
    = with_activities
        (<[activity_name := with_participants (before ++ after) a]> (activities σ)) σ.
Proof.
  rewrite unregister_run.
  destruct (session_valid σ (default "" authorization) utcnow); [|done].
  destruct (activities σ !! activity_name) as [a|]; [|done].
  destruct (decide (email ∈ participants a)) as [Hin|]; [|done].
  destruct (list_remove_first_elem email (participants a) Hin)
    as (before & after & Hsplit & Hfirst & ->).
  intros _. by exists a, before, after.
Qed.

(** X3: an unregister undoes a signup.  When a signup has succeeded, an
    unregister of the same email from the same activity by a teacher with a
    live session succeeds and leaves exactly the state before the signup. *)
Theorem signup_then_unregister (activity_name email : string)
    (authorization : option string) (utcnow : Z) (σ : State) :
  status (signup_for_activity activity_name email σ).1 = 200 →
  session_valid σ (default "" authorization) utcnow = true →
  let σ1 := (signup_for_activity activity_name email σ).2 in
  let undo := unregister_from_activity activity_name email authorization utcnow σ1 in
  status undo.1 = 200 ∧ undo.2 = σ.
Proof.
  intros Hok Hsession σ1 undo. subst undo σ1.
  destruct (signup_ok_inv _ _ _ Hok) as (a & Ha & Hout).
  rewrite (signup_ok _ _ _ a Ha Hout). cbn [snd].
  rewrite unregister_run, session_valid_with_activities, Hsession.
  cbn [activities with_activities]. rewrite lookup_insert_eq.
  cbn [participants with_participants].
  destruct (decide (email ∈ participants a ++ [email])) as [_|Hno];
    [|exfalso; apply Hno, elem_of_app; right; by apply list_elem_of_singleton].
  rewrite (list_remove_first_last _ _ Hout). split; [done|]. cbn [snd].
  rewrite insert_insert_eq.
  change (with_participants (participants a)
            (with_participants (participants a ++ [email]) a))
    with (with_participants (participants a) a).
  rewrite with_participants_same, (insert_id _ _ _ Ha).
  by destruct σ.
Qed.

(** X4: in a reachable state a successful unregister takes the email off
    the list for good: the same unregister again, with any header at any
    time, is answered 400 or 401, and a new signup of the email succeeds
    and puts it at the end of the list. *)
Theorem unregister_then_again (activity_name email : string)
    (authorization : option string) (utcnow : Z) (σ : State) :
  reachable TEACHER_CREDS σ →
  let first := unregister_from_activity activity_name email authorization utcnow σ in
  status first.1 = 200 →
  ∃ a', activities first.2 !! activity_name = Some a' ∧
        (email ∉ participants a') ∧
        (∀ authorization' utcnow',
           let again := unregister_from_activity activity_name email
                          authorization' utcnow' first.2 in
           (status again.1 = 400 ∨ status again.1 = 401) ∧
           activities again.2 = activities first.2) ∧
        status (signup_for_activity activity_name email first.2).1 = 200 ∧
        ∃ a'', activities (signup_for_activity activity_name email first.2).2
                 !! activity_name = Some a'' ∧
               participants a'' = participants a' ++ [email].
Proof.
  intros Hreach first Hok. subst first.
  destruct (unregister_ok_inv _ _ _ _ _ Hok)
    as (a & before & after & _ & Ha & Hsplit & Hfirst & ->).
  cbn [activities with_activities]. rewrite lookup_insert_eq.
  eexists. split; [done|]. cbn [participants with_participants].
  assert (email ∉ before ++ after) as Hgone.
  { pose proof (reachable_distinct _ _ Hreach _ _ Ha) as Hnodup.
    rewrite Hsplit in Hnodup.
    apply NoDup_app in Hnodup as (_ & _ & Hnodup).
    apply NoDup_cons in Hnodup as [Hlast _].
    intros Hagain. apply elem_of_app in Hagain as [?|?]; done. }
  split; [done|]. split.
  - intros authorization' utcnow'. cbv zeta. rewrite unregister_run.
    destruct (session_valid _ (default "" authorization') utcnow').
    + cbn [activities with_activities]. rewrite lookup_insert_eq.
      cbn [participants with_participants].
      destruct (decide (email ∈ before ++ after)); [done|].
      split; [by left|done].
    + split; [by right|]. cbn [snd]. apply validate_admin_token_activities.
  - erewrite signup_ok;
      [|cbn [activities with_activities]; apply lookup_insert_eq|done].
    split; [done|]. cbn [snd activities with_activities].
    rewrite lookup_insert_eq. eauto.
Qed.

Lemma signup_other (n1 e1 n2 : string) (σ : State) :
  n1 ≠ n2 →
  activities (signup_for_activity n1 e1 σ).2 !! n2 = activities σ !! n2.
Proof.
  intros Hne. rewrite signup_run.
  destruct (activities σ !! n1) as [a|]; [|done].
  destruct (decide (e1 ∈ participants a)); [done|].
  cbn [snd activities with_activities]. by rewrite lookup_insert_ne.
Qed.

Lemma signup_result_other (n1 e1 n2 e2 : string) (σ : State) :
  n1 ≠ n2 →
  (signup_for_activity n2 e2 (signup_for_activity n1 e1 σ).2).1
  = (signup_for_activity n2 e2 σ).1.
Proof.
  intros Hne. rewrite (signup_run n2), (signup_run n2 e2 σ), signup_other by done.
  destruct (activities σ !! n2) as [a|]; [|done].
  by destruct (decide (e2 ∈ participants a)).
Qed.

(** X5: signups to two different activities do not interfere: each gets the
    answer it would get alone, and both orders leave the same state. *)
Theorem signup_commute (n1 e1 n2 e2 : string) (σ : State) :
  n1 ≠ n2 →
  (signup_for_activity n2 e2 (signup_for_activity n1 e1 σ).2).1
    = (signup_for_activity n2 e2 σ).1 ∧
  (signup_for_activity n1 e1 (signup_for_activity n2 e2 σ).2).1
    = (signup_for_activity n1 e1 σ).1 ∧
  (signup_for_activity n2 e2 (signup_for_activity n1 e1 σ).2).2
    = (signup_for_activity n1 e1 (signup_for_activity n2 e2 σ).2).2.
Proof.
  intros Hne. split; [by apply signup_result_other|].
  split; [by apply signup_result_other|].
  rewrite (signup_run n2), (signup_run n1 e1 (signup_for_activity n2 e2 σ).2).
  rewrite !signup_other by done.
  rewrite (signup_run n1 e1 σ), (signup_run n2 e2 σ).
  destruct (activities σ !! n1) as [a1|], (activities σ !! n2) as [a2|];
    try done.
  destruct (decide (e1 ∈ participants a1)), (decide (e2 ∈ participants a2));
    try done.
  cbn [snd activities with_activities]. unfold with_activities.
  cbn [ADMIN_SESSIONS]. f_equal. by apply insert_insert_ne.
Qed.

(** X16: signup asks for no session.  Whatever the session table holds, a
    signup gives the same answer and the same activities, and it hands the
    table on untouched in every outcome. *)
Theorem signup_needs_no_session (activity_name email : string)
    (sessions : gmap string string) (σ : State) :
  signup_for_activity activity_name email (with_sessions sessions σ)
  = ((signup_for_activity activity_name email σ).1,
     with_sessions sessions (signup_for_activity activity_name email σ).2) ∧
  ADMIN_SESSIONS (signup_for_activity activity_name email σ).2 = ADMIN_SESSIONS σ.
Proof.
  rewrite (signup_run _ _ (with_sessions sessions σ)), (signup_run _ _ σ).
  cbn [activities with_sessions].
  destruct (activities σ !! activity_name) as [a|]; [|done].
  by destruct (decide (email ∈ participants a)).
Qed.
End SignupUnregister.

Lemma logged_in_reachable :
  @reachable Calendar.calendar Example.creds Example.logged_in.
Proof.
  exact (@reachable_step Calendar.calendar Example.creds initial_state
           (Login Example.body) Example.token Example.midnight
           (@reachable_init Calendar.calendar Example.creds)).
Qed.

Lemma signup_then_unregister_witness :
  (@unregister_from_activity Calendar.calendar
     "Chess Club" "emma@mergington.edu" Example.bearer Example.four
     (signup_for_activity "Chess Club" "emma@mergington.edu" Example.logged_in).2).2
  = Example.logged_in.
Proof.
  assert (status (signup_for_activity "Chess Club" "emma@mergington.edu"
                    Example.logged_in).1 = 200) as Hok
    by (vm_compute; reflexivity).
  assert (@session_valid Calendar.calendar Example.logged_in
            (default "" Example.bearer) Example.four = true) as Hsession
    by (vm_compute; reflexivity).
  exact (proj2 (@signup_then_unregister Calendar.calendar
                  "Chess Club" "emma@mergington.edu" Example.bearer Example.four
                  Example.logged_in Hok Hsession)).
Defined.

Lemma unregister_then_again_witness :
  status (signup_for_activity "Chess Club" "michael@mergington.edu"
            (@unregister_from_activity Calendar.calendar
               "Chess Club" "michael@mergington.edu" Example.bearer Example.four
               Example.logged_in).2).1 = 200.
Proof.
  assert (status (@unregister_from_activity Calendar.calendar
                    "Chess Club" "michael@mergington.edu" Example.bearer
                    Example.four Example.logged_in).1 = 200) as Hok
    by (vm_compute; reflexivity).
  destruct (@unregister_then_again Calendar.calendar Example.creds
              "Chess Club" "michael@mergington.edu" Example.bearer Example.four
              Example.logged_in logged_in_reachable Hok)
    as (a' & _ & _ & _ & Hsignup & _).
  exact Hsignup.
Defined.

Lemma signup_commute_witness :
  (signup_for_activity "Math Club" "emma@mergington.edu"
     (signup_for_activity "Chess Club" "emma@mergington.edu" initial_state).2).2
  = (signup_for_activity "Chess Club" "emma@mergington.edu"
       (signup_for_activity "Math Club" "emma@mergington.edu" initial_state).2).2.
Proof.
  apply (signup_commute "Chess Club" "emma@mergington.edu"
           "Math Club" "emma@mergington.edu" initial_state).
  discriminate.
Defined.

(** ** No handler of the store or of logout ends in an uncaught exception *)

Section Answers.
Context `{Datetime}.

(** X6: signup, unregister and logout always end in a body or in an
    [HTTPException] of their own (400 or 404; 400, 401 or 404; 400), and
    token validation always returns a boolean: the [ValueError] of
    [list.remove] and the [IndexError] of [split(...)[1]] cannot occur. *)
Theorem handlers_answer (activity_name email : string)
    (authorization : option string) (utcnow : Z) (σ : State) :
  answers [400; 404] (signup_for_activity activity_name email σ).1 ∧
  answers [400; 401; 404]
    (unregister_from_activity activity_name email authorization utcnow σ).1 ∧
  answers [400] (admin_logout authorization σ).1 ∧
  (∃ ok, (_validate_admin_token authorization utcnow σ).1 = Val ok) ∧
  (∀ token, ∃ t, (bearer_token token σ).1 = Val t).
Proof.
  split; [|split; [|split; [|split]]].
  - rewrite signup_run.
    destruct (activities σ !! activity_name) as [a|];
      [|cbn; set_solver].
    destruct (decide (email ∈ participants a)); [cbn; set_solver|done].
  - rewrite unregister_run.
    destruct (session_valid σ (default "" authorization) utcnow);
      [|cbn; set_solver].
    destruct (activities σ !! activity_name) as [a|]; [|cbn; set_solver].
    destruct (decide (email ∈ participants a)) as [Hin|]; [|cbn; set_solver].
    by destruct (list_remove_first_elem email (participants a) Hin)
      as (before & after & _ & _ & ->).
  - rewrite admin_logout_run.
    destruct authorization as [header|]; [|cbn; set_solver].
    destruct (String.eqb header ""); [cbn; set_solver|done].
  - destruct authorization as [header|]; [|by eexists].
    rewrite validate_admin_token_valid. by eexists.
  - intros token. rewrite bearer_token_strip. by eexists.
Qed.
End Answers.

(** ** Sessions from login to logout *)

Section Sessions.
Context `{Datetime}.

Lemma scan_teachers_outcome (teachers : list json) (username password : json)
    (uuid4_hex : string) (utcnow : Z) (σ : State) :
  scan_teachers teachers username password uuid4_hex utcnow σ
  = (Val (JDict [("token", JStr uuid4_hex); ("expires_in_hours", JInt 8)]),
     with_sessions
       (<[uuid4_hex := isoformat (utcnow + hours 8)]> (ADMIN_SESSIONS σ)) σ)
  ∨ ∃ e, scan_teachers teachers username password uuid4_hex utcnow σ
         = (Raise e, σ) ∧ status (Raise e) ≠ 200.
Proof.
  induction teachers as [|t rest IH]; [right; by eexists|].
  cbn [scan_teachers]. unfold mbind, M_bind.
  destruct t as [| | | | |items]; try (right; by eexists).
  cbn [py_get]. unfold mret, M_ret.
  destruct (py_eq _ username); [|exact IH].
  destruct (py_eq _ password); [|exact IH].
  rewrite create_admin_token_run.
  destruct (representable _); [by left|right; by eexists].
Qed.

(** A login either records the session and returns the token, or raises and
    leaves the state alone, whatever [TEACHER_CREDS] is. *)
Lemma admin_login_outcome (TEACHER_CREDS : json)
    (credentials : list (string * json)) (uuid4_hex : string) (utcnow : Z)
    (σ : State) :
  admin_login TEACHER_CREDS credentials uuid4_hex utcnow σ
  = (Val (JDict [("token", JStr uuid4_hex); ("expires_in_hours", JInt 8)]),
     with_sessions
       (<[uuid4_hex := isoformat (utcnow + hours 8)]> (ADMIN_SESSIONS σ)) σ)
  ∨ ∃ e, admin_login TEACHER_CREDS credentials uuid4_hex utcnow σ = (Raise e, σ) ∧
         status (Raise e) ≠ 200.
Proof.
  unfold admin_login. cbv zeta.
  destruct (negb (truthy _) || negb (truthy _)); [right; by eexists|].
  unfold mbind, M_bind.
  destruct TEACHER_CREDS as [| | | | |items]; try (right; by eexists).
  cbn [py_get]. unfold mret, M_ret.
  destruct (default (JList []) (items_get "teachers" items));
    try (right; by eexists); cbn [py_iter]; apply scan_teachers_outcome.
Qed.

(** X9: a logout undoes a login.  A login answered 200 returns the
    generated token, writes only that token's entry and touches no
    activity; a logout with the returned token then removes the entry, so
    that the state is exactly the one before the login when the token was
    not in the table already. *)
Theorem login_then_logout (TEACHER_CREDS : json)
    (credentials : list (string * json)) (uuid4_hex : string) (utcnow : Z)
    (σ : State) :
  status (admin_login TEACHER_CREDS credentials uuid4_hex utcnow σ).1 = 200 →
  let σ1 := (admin_login TEACHER_CREDS credentials uuid4_hex utcnow σ).2 in
  let out := admin_logout (Some ("Bearer " +:+ uuid4_hex)) σ1 in
  (admin_login TEACHER_CREDS credentials uuid4_hex utcnow σ).1
    = Val (JDict [("token", JStr uuid4_hex); ("expires_in_hours", JInt 8)]) ∧
  (∀ other, other ≠ uuid4_hex →
     ADMIN_SESSIONS σ1 !! other = ADMIN_SESSIONS σ !! other) ∧
  activities σ1 = activities σ ∧
  status out.1 = 200 ∧
  ADMIN_SESSIONS out.2 = delete uuid4_hex (ADMIN_SESSIONS σ) ∧
  activities out.2 = activities σ ∧
  (ADMIN_SESSIONS σ !! uuid4_hex = None → out.2 = σ).
Proof.
  intros Hok σ1 out. subst out σ1.
  destruct (admin_login_outcome TEACHER_CREDS credentials uuid4_hex utcnow σ)
    as [Hrun|(e & Hrun & Hfailed)]; rewrite Hrun in *; cbn [fst snd] in *.
  - split; [done|]. split.
    { intros other Hother. cbn [ADMIN_SESSIONS with_sessions].
      by rewrite lookup_insert_ne. }
    split; [done|]. rewrite admin_logout_run.
    change (String.eqb ("Bearer " +:+ uuid4_hex) "") with false.
    rewrite strip_bearer_prefixed. cbn [fst snd ADMIN_SESSIONS with_sessions activities].
    rewrite delete_insert_eq. split; [done|]. split; [done|]. split; [done|].
    intros Hfresh. rewrite delete_id by done. unfold with_sessions.
    cbn [activities]. by destruct σ.
  - done.
Qed.

(** X10: a logout invalidates the token.  After a logout with a non-empty
    header, validation of that token, raw or behind ["Bearer "], answers
    false at any time and changes nothing, and an unregister presenting it
    is answered 401. *)
Theorem logout_invalidates (header header' : string) (σ : State) :
  header ≠ "" →
  strip_bearer header' = strip_bearer header →
  let σ' := (admin_logout (Some header) σ).2 in
  ∀ utcnow activity_name email,
    _validate_admin_token (Some header') utcnow σ' = (Val false, σ') ∧
    unregister_from_activity activity_name email (Some header') utcnow σ'
    = (Raise (HTTPException 401 "Admin authentication required"), σ').
Proof.
  intros Hne Hsame σ' utcnow activity_name email. subst σ'.
  rewrite admin_logout_run. apply String.eqb_neq in Hne. rewrite Hne. cbn [snd].
  assert (∀ σ0 : State,
            recorded_expiry
              (with_sessions (delete (strip_bearer header) (ADMIN_SESSIONS σ0)) σ0)
              (strip_bearer header') = None) as Hgone.
  { intros σ0. unfold recorded_expiry. cbn [ADMIN_SESSIONS with_sessions].
    by rewrite Hsame, lookup_delete_eq. }
  assert (∀ σ0 : State,
            _validate_admin_token (Some header') utcnow
              (with_sessions (delete (strip_bearer header) (ADMIN_SESSIONS σ0)) σ0)
            = (Val false,
               with_sessions (delete (strip_bearer header) (ADMIN_SESSIONS σ0)) σ0))
    as Hrefused.
  { intros σ0. rewrite validate_admin_token_run, Hgone.
    by destruct (String.eqb header' ""). }
  split; [apply Hrefused|].
  rewrite unregister_run.
  change (default "" (Some header')) with header'.
  unfold session_valid. rewrite Hgone, andb_false_r, Hrefused. done.
Qed.

(** X11: waiting never revives a token.  When validation has answered
    false, it answers false again at any later time and changes nothing
    more; when it answers true, it would have answered true at any earlier
    time; and the only entry validation ever removes is the one of the token
    presented. *)
Theorem refused_stays_refused (header : string) (utcnow : Z) (σ : State) :
  let first := _validate_admin_token (Some header) utcnow σ in
  (first.1 = Val false →
     ∀ later, utcnow ≤ later →
       _validate_admin_token (Some header) later first.2 = (Val false, first.2)) ∧
  (first.1 = Val true →
     ∀ earlier, earlier ≤ utcnow →
       _validate_admin_token (Some header) earlier σ = (Val true, σ)) ∧
  (∀ other, other ≠ strip_bearer header →
     ADMIN_SESSIONS first.2 !! other = ADMIN_SESSIONS σ !! other).
Proof.
  intros first. subst first. rewrite (validate_admin_token_run header utcnow σ).
  destruct (String.eqb header "") eqn:Hempty.
  { cbn [fst snd]. split; [|done]. intros _ later _.
    by rewrite validate_admin_token_run, Hempty. }
  destruct (recorded_expiry σ (strip_bearer header)) as [expiry|] eqn:Hexp.
  - destruct (expiry <? utcnow) eqn:Hpast; cbn [fst snd].
    + split; [|split; [done|]].
      * intros _ later _. rewrite validate_admin_token_run, Hempty.
        unfold recorded_expiry. cbn [ADMIN_SESSIONS with_sessions].
        by rewrite lookup_delete_eq.
      * intros other Hother. cbn [ADMIN_SESSIONS with_sessions].
        by rewrite lookup_delete_ne.
    + split; [done|]. split; [|done]. intros _ earlier Hearlier.
      rewrite validate_admin_token_run, Hempty, Hexp.
      apply Z.ltb_ge in Hpast.
      assert ((expiry <? earlier) = false) as -> by (apply Z.ltb_ge; lia). done.
  - cbn [fst snd]. split; [|done]. intros _ later _.
    by rewrite validate_admin_token_run, Hempty, Hexp.
Qed.

(** X15: the ["Bearer "] prefix is optional.  For a token that is not empty
    and does not itself begin with ["Bearer "], the header may carry it raw
    or prefixed: validation, unregister and logout do the same in both
    cases. *)
Theorem bearer_prefix_optional (t : string) (utcnow : Z)
    (activity_name email : string) (σ : State) :
  t ≠ "" →
  startswith t "Bearer " = false →
  _validate_admin_token (Some ("Bearer " +:+ t)) utcnow σ
    = _validate_admin_token (Some t) utcnow σ ∧
  unregister_from_activity activity_name email (Some ("Bearer " +:+ t)) utcnow σ
    = unregister_from_activity activity_name email (Some t) utcnow σ ∧
  admin_logout (Some ("Bearer " +:+ t)) σ = admin_logout (Some t) σ.
Proof.
  intros Hne Hraw. apply String.eqb_neq in Hne.
  assert (_validate_admin_token (Some ("Bearer " +:+ t)) utcnow σ
          = _validate_admin_token (Some t) utcnow σ) as Hvalidate.
  { rewrite !validate_admin_token_run, strip_bearer_prefixed,
      (strip_bearer_raw t Hraw), Hne. done. }
  split; [exact Hvalidate|]. split.
  - rewrite !unregister_run.
    change (default "" (Some ("Bearer " +:+ t))) with ("Bearer " +:+ t).
    change (default "" (Some t)) with t. rewrite Hvalidate.
    unfold session_valid.
    rewrite strip_bearer_prefixed, (strip_bearer_raw t Hraw), Hne. done.
  - rewrite !admin_logout_run, strip_bearer_prefixed,
      (strip_bearer_raw t Hraw), Hne. done.
Qed.
End Sessions.


Lemma login_then_logout_witness :
  (admin_logout (Some ("Bearer " +:+ Example.token)) Example.logged_in).2
  = initial_state.
Proof.
  assert (status (@admin_login Calendar.calendar Example.creds Example.body
                    Example.token Example.midnight initial_state).1 = 200) as Hok
    by (vm_compute; reflexivity).
  destruct (@login_then_logout Calendar.calendar Example.creds Example.body
              Example.token Example.midnight initial_state Hok)
    as (_ & _ & _ & _ & _ & _ & Hback).
  apply Hback. vm_compute. reflexivity.
Defined.

Lemma logout_invalidates_witness :
  @unregister_from_activity Calendar.calendar
    "Chess Club" "michael@mergington.edu" (Some Example.token) Example.four
    (admin_logout Example.bearer Example.logged_in).2
  = (Raise (HTTPException 401 "Admin authentication required"),
     (admin_logout Example.bearer Example.logged_in).2).
Proof.
  apply (@logout_invalidates Calendar.calendar
           ("Bearer " +:+ Example.token) Example.token Example.logged_in).
  - discriminate.
  - reflexivity.
Defined.

Lemma refused_stays_refused_witness :
  @_validate_admin_token Calendar.calendar (Some Example.token) Example.four
    Example.logged_in = (Val true, Example.logged_in) ∧
  @_validate_admin_token Calendar.calendar (Some Example.token) (Example.nine + 1)
    (@_validate_admin_token Calendar.calendar (Some Example.token) Example.nine
       Example.logged_in).2
  = (Val false,
     (@_validate_admin_token Calendar.calendar (Some Example.token) Example.nine
        Example.logged_in).2).
Proof.
  split.
  - destruct (@refused_stays_refused Calendar.calendar Example.token
                Example.eight Example.logged_in) as (_ & Hearlier & _).
    apply Hearlier; [vm_compute; reflexivity | vm_compute; discriminate].
  - destruct (@refused_stays_refused Calendar.calendar Example.token
                Example.nine Example.logged_in) as (Hlater & _).
    apply Hlater; [vm_compute; reflexivity | vm_compute; discriminate].
Defined.

Lemma bearer_prefix_optional_witness :
  @unregister_from_activity Calendar.calendar
    "Chess Club" "michael@mergington.edu" (Some ("Bearer " +:+ Example.token))
    Example.four Example.logged_in
  = @unregister_from_activity Calendar.calendar
      "Chess Club" "michael@mergington.edu" (Some Example.token)
      Example.four Example.logged_in.
Proof.
  apply (@bearer_prefix_optional Calendar.calendar Example.token Example.four
           "Chess Club" "michael@mergington.edu" Example.logged_in).
  - discriminate.
  - reflexivity.
Defined.

(** ** Login against the loaded credentials *)

Section LoginShapes.
Context `{Datetime}.

(** The scan over a prefix of well-formed entries: the first match ends it,
    and without a match it goes on with the rest. *)
Lemma scan_teachers_prefix (pre rest : list json) (username password : json)
    (uuid4_hex : string) (utcnow : Z) (σ : State) :
  forallb is_dict pre = true →
  scan_teachers (pre ++ rest) username password uuid4_hex utcnow σ =
  if existsb (cred_matches username password) pre
  then session_granted uuid4_hex utcnow σ
  else scan_teachers rest username password uuid4_hex utcnow σ.
Proof.
  induction pre as [|t pre IH]; intros Hdicts; [done|].
  simpl in Hdicts. apply andb_prop in Hdicts as [Ht Hpre].
  destruct t as [| | | | |items]; try discriminate Ht.
  cbn [app scan_teachers existsb cred_matches py_get].
  unfold mbind at 1. unfold M_bind at 1. unfold mret at 1. unfold M_ret at 1.
  destruct (py_eq (default JNull (items_get "username" items)) username);
    [|by apply IH].
  unfold mbind at 1. unfold M_bind at 1. unfold mret at 1. unfold M_ret at 1.
  destruct (py_eq (default JNull (items_get "password" items)) password);
    [apply grant_run|by apply IH].
Qed.

Lemma scan_teachers_bad (bad : json) (post : list json) (username password : json)
    (uuid4_hex : string) (utcnow : Z) (σ : State) :
  is_dict bad = false →
  scan_teachers (bad :: post) username password uuid4_hex utcnow σ
  = (Raise AttributeError, σ).
Proof. by destruct bad. Qed.

(** What [admin_login] does once both fields are there. *)
Lemma admin_login_scan (TEACHER_CREDS : json) (credentials : list (string * json))
    (uuid4_hex : string) (utcnow : Z) (σ : State) :
  truthy (default JNull (items_get "username" credentials)) = true →
  truthy (default JNull (items_get "password" credentials)) = true →
  admin_login TEACHER_CREDS credentials uuid4_hex utcnow σ =
  (teachers ← py_get TEACHER_CREDS "teachers" (JList []);
   ts ← py_iter teachers;
   scan_teachers ts (default JNull (items_get "username" credentials))
     (default JNull (items_get "password" credentials)) uuid4_hex utcnow) σ.
Proof. intros Hu Hp. unfold admin_login. cbv zeta. by rewrite Hu, Hp. Qed.

(** X7: login against credentials of the wrong shape.  The check of the
    two fields comes first and answers 400 whatever was loaded.  With both
    fields there, a loaded value that is no object ends the request in an
    [AttributeError] (an internal server error), an object without
    ["teachers"] answers 401, a ["teachers"] value that is null, a boolean or
    a number ends in a [TypeError], a string or object there answers 401
    when empty and ends in an [AttributeError] otherwise, and in a list the
    first entry that is no object ends in an [AttributeError] unless an
    entry before it matches; a match before it ends the scan as any match
    does, with the session recorded and the token returned when now plus 8
    hours is a datetime and with an [OverflowError] otherwise.  None of the
    failures changes the state. *)
Theorem admin_login_wrong_shape (TEACHER_CREDS : json)
    (credentials : list (string * json)) (uuid4_hex : string) (utcnow : Z)
    (σ : State) :
  let username := default JNull (items_get "username" credentials) in
  let password := default JNull (items_get "password" credentials) in
  let run := admin_login TEACHER_CREDS credentials uuid4_hex utcnow σ in
  let invalid := (Raise (HTTPException 401 "Invalid credentials"), σ) in
  (truthy username = false ∨ truthy password = false →
     run = (Raise (HTTPException 400 "username and password required"), σ)) ∧
  (truthy username = true → truthy password = true →
     (is_dict TEACHER_CREDS = false →
        run = (Raise AttributeError, σ) ∧ status run.1 = 500) ∧
     (∀ items, TEACHER_CREDS = JDict items →
        (items_get "teachers" items = None → run = invalid) ∧
        (∀ v, items_get "teachers" items = Some v →
           match v with
           | JNull | JBool _ | JInt _ => run = (Raise TypeError, σ)
           | JStr s =>
               run = if String.eqb s "" then invalid else (Raise AttributeError, σ)
           | JDict entries =>
               run = match entries with
                     | [] => invalid
                     | _ :: _ => (Raise AttributeError, σ)
                     end
           | JList ts =>
               ∀ pre bad post,
                 ts = pre ++ bad :: post →
                 forallb is_dict pre = true →
                 is_dict bad = false →
                 run = if existsb (cred_matches username password) pre
                       then
                         if representable (utcnow + hours 8)
                         then (Val (JDict [("token", JStr uuid4_hex);
                                           ("expires_in_hours", JInt 8)]),
                               with_sessions
                                 (<[uuid4_hex := isoformat (utcnow + hours 8)]>
                                    (ADMIN_SESSIONS σ)) σ)
                         else (Raise OverflowError, σ)
                       else (Raise AttributeError, σ)
           end))).
Proof.
  intros username password run invalid. subst run invalid. split.
  - unfold admin_login. cbv zeta. fold username password.
    intros [-> | ->]; [done|]. by rewrite orb_true_r.
  - intros Hu Hp. rewrite (admin_login_scan _ _ _ _ _ Hu Hp).
    fold username password. unfold mbind, M_bind. split.
    + intros Hshape. by destruct TEACHER_CREDS.
    + intros items ->. cbn [py_get]. unfold mret, M_ret. split.
      * by intros ->.
      * intros v ->. cbn [default from_option id].
        destruct v as [| | |s|ts|entries]; try done.
        -- cbn [py_iter]. unfold mret, M_ret.
           destruct s as [|c s]; [done|]. done.
        -- intros pre bad post -> Hpre Hbad. cbn [py_iter]. unfold mret, M_ret.
           rewrite scan_teachers_prefix by done.
           by rewrite scan_teachers_bad.
        -- cbn [py_iter]. unfold mret, M_ret.
           destruct entries as [|[k v] entries]; done.
Qed.

Lemma teacher_entries_dicts (cs : list (string * string)) :
  forallb is_dict (teacher_entry <$> cs) = true.
Proof. induction cs as [|c cs IH]; [done|]. exact IH. Qed.

Lemma teacher_entries_match (u p : string) (cs : list (string * string)) :
  existsb (cred_matches (JStr u) (JStr p)) (teacher_entry <$> cs) = true
  ↔ (u, p) ∈ cs.
Proof.
  induction cs as [|[u' p'] cs IH].
  - split; [done|]. by intros ?%elem_of_nil.
  - cbn [fmap list_fmap existsb].
    change (list_fmap _ _ teacher_entry cs) with (teacher_entry <$> cs).
    rewrite orb_true_iff, IH, elem_of_cons.
    change (teacher_entry (u', p'))
      with (JDict [("username", JStr u'); ("password", JStr p')]).
    rewrite cred_matches_strings. split.
    + intros [[-> ->]|Hin]; [by left|by right].
    + intros [Heq|Hin]; [left; by injection Heq|by right].
Qed.

(** X8: the teachers on file, and no one else, can log in.  With a
    credential file of the documented shape, loaded as it was parsed, a
    login with a username and a password that are strings is answered 200
    exactly when neither is empty, the pair is on file and now plus 8 hours
    is a datetime.  An empty field or a pair that is not on file is answered
    400 or 401 and changes nothing, so an entry with an empty username or
    password can never be used; a pair on file at a clock reading whose
    expiry would pass [datetime.max] ends in an [OverflowError]. *)
Theorem admin_login_listed_teachers (cs : list (string * string))
    (credentials : list (string * json)) (u p uuid4_hex : string) (utcnow : Z)
    (σ : State) :
  items_get "username" credentials = Some (JStr u) →
  items_get "password" credentials = Some (JStr p) →
  let run := admin_login (teachers_file cs) credentials uuid4_hex utcnow σ in
  load_TEACHER_CREDS true (Val (teachers_file cs)) = Val (teachers_file cs) ∧
  (status run.1 = 200 ↔
     u ≠ "" ∧ p ≠ "" ∧ (u, p) ∈ cs ∧ representable (utcnow + hours 8) = true) ∧
  (u = "" ∨ p = "" ∨ (u, p) ∉ cs → answers [400; 401] run.1 ∧ run.2 = σ) ∧
  (representable (utcnow + hours 8) = true → answers [400; 401] run.1) ∧
  (u ≠ "" → p ≠ "" → (u, p) ∈ cs →
   representable (utcnow + hours 8) = false →
     run = (Raise OverflowError, σ)).
Proof.
  intros Hu Hp run. subst run. split; [done|].
  unfold teachers_file.
  rewrite (admin_login_run _ (teacher_entry <$> cs))
    by (done || apply teacher_entries_dicts).
  cbv zeta. rewrite Hu, Hp. cbn [default from_option id truthy].
  rewrite !negb_involutive.
  destruct (String.eqb_spec u "") as [->|Hune].
  { cbn. split; [split; [done|by intros (? & _)]|].
    split; [intros _; split; [set_solver|done]|].
    split; [intros _; set_solver|done]. }
  destruct (String.eqb_spec p "") as [->|Hpne].
  { cbn. split; [split; [done|by intros (_ & ? & _)]|].
    split; [intros _; split; [set_solver|done]|].
    split; [intros _; set_solver|done]. }
  cbn [orb].
  destruct (existsb (cred_matches (JStr u) (JStr p)) (teacher_entry <$> cs))
    eqn:Hmatch.
  - apply teacher_entries_match in Hmatch. unfold session_granted.
    destruct (representable (utcnow + hours 8)); cbn.
    + split; [done|]. split; [|done]. intros [?|[?|?]]; done.
    + split; [split; [done|by intros (_ & _ & _ & ?)]|].
      split; [intros [?|[?|?]]; done|]. done.
  - assert ((u, p) ∉ cs) as Hout.
    { intros Hin. apply teacher_entries_match in Hin. congruence. }
    cbn. split; [split; [done|by intros (_ & _ & ? & _)]|].
    split; [intros _; split; [set_solver|done]|].
    split; [intros _; set_solver|done].
Qed.
End LoginShapes.

Lemma admin_login_wrong_shape_witness :
  (@admin_login Calendar.calendar (JList []) Example.body Example.token
     Example.midnight initial_state
   = (Raise AttributeError, initial_state)) ∧
  (@admin_login Calendar.calendar
     (JDict [("teachers", JList (Example.teachers ++ [JStr "ms.okafor"]))])
     [("username", JStr "ms.okafor"); ("password", JStr "abacus")]
     Example.token Example.midnight initial_state
   = (Raise AttributeError, initial_state)) ∧
  (@admin_login Calendar.calendar
     (JDict [("teachers", JList (Example.teachers ++ [JStr "ms.okafor"]))])
     Example.body Example.token Example.midnight initial_state).2
  = Example.logged_in.
Proof.
  split; [|split].
  - destruct (@admin_login_wrong_shape Calendar.calendar (JList []) Example.body
                Example.token Example.midnight initial_state) as (_ & Hscan).
    destruct (Hscan eq_refl eq_refl) as (Hnotdict & _).
    apply Hnotdict. reflexivity.
  - destruct (@admin_login_wrong_shape Calendar.calendar
                (JDict [("teachers", JList (Example.teachers ++ [JStr "ms.okafor"]))])
                [("username", JStr "ms.okafor"); ("password", JStr "abacus")]
                Example.token Example.midnight initial_state) as (_ & Hscan).
    destruct (Hscan eq_refl eq_refl) as (_ & Hdict).
    destruct (Hdict _ eq_refl) as (_ & Hteachers).
    exact (Hteachers _ eq_refl Example.teachers (JStr "ms.okafor") []
             eq_refl eq_refl eq_refl).
  - destruct (@admin_login_wrong_shape Calendar.calendar
                (JDict [("teachers", JList (Example.teachers ++ [JStr "ms.okafor"]))])
                Example.body Example.token Example.midnight initial_state)
      as (_ & Hscan).
    destruct (Hscan eq_refl eq_refl) as (_ & Hdict).
    destruct (Hdict _ eq_refl) as (_ & Hteachers).
    rewrite (Hteachers _ eq_refl Example.teachers (JStr "ms.okafor") []
               eq_refl eq_refl eq_refl).
    vm_compute. reflexivity.
Defined.

Lemma admin_login_listed_teachers_witness :
  status (@admin_login Calendar.calendar
            (teachers_file [("ms.rivera", "chalk-and-talk")]) Example.body
            Example.token Example.midnight initial_state).1 = 200.
Proof.
  destruct (@admin_login_listed_teachers Calendar.calendar
              [("ms.rivera", "chalk-and-talk")] Example.body
              "ms.rivera" "chalk-and-talk" Example.token Example.midnight
              initial_state eq_refl eq_refl) as (_ & Hiff & _).
  apply Hiff. split; [discriminate|]. split; [discriminate|].
  split; [|reflexivity]. apply list_elem_of_singleton. reflexivity.
Defined.

(** ** The catalogue never changes *)

Section Catalogue.
Context `{Datetime}.
Variable TEACHER_CREDS : json.

Lemma same_details_refl (a : Activity) : same_details a a.
Proof. done. Qed.

(** What any request does to the record stored under [name], apart from
    its participants. *)
Lemma handle_details (r : request) (uuid4_hex : string) (utcnow : Z)
    (σ : State) (name : string) :
  match activities σ !! name with
  | Some a =>
      ∃ a', activities (handle TEACHER_CREDS r uuid4_hex utcnow σ).2 !! name
            = Some a' ∧ same_details a a'
  | None =>
      activities (handle TEACHER_CREDS r uuid4_hex utcnow σ).2 !! name = None
  end.
Proof.
  assert (match activities σ !! name with
          | Some a => ∃ a', activities σ !! name = Some a' ∧ same_details a a'
          | None => activities σ !! name = None
          end) as Hsame.
  { destruct (activities σ !! name) as [a|]; [|done]. by exists a. }
  destruct r as [|activity_name email|activity_name email authorization
                |credentials|authorization]; cbn [handle].
  - exact Hsame.
  - rewrite signup_run.
    destruct (activities σ !! activity_name) as [b|] eqn:Hb; [|exact Hsame].
    destruct (decide (email ∈ participants b)); [exact Hsame|].
    cbn [snd activities with_activities].
    destruct (decide (activity_name = name)) as [->|Hne].
    + rewrite Hb, lookup_insert_eq. by eexists.
    + by rewrite lookup_insert_ne.
  - rewrite unregister_run.
    destruct (session_valid σ (default "" authorization) utcnow);
      [|cbn [snd]; by rewrite validate_admin_token_activities].
    destruct (activities σ !! activity_name) as [b|] eqn:Hb; [|exact Hsame].
    destruct (decide (email ∈ participants b)); [|exact Hsame].
    destruct (list_remove_first email (participants b)) as [ps|]; [|exact Hsame].
    cbn [snd activities with_activities].
    destruct (decide (activity_name = name)) as [->|Hne].
    + rewrite Hb, lookup_insert_eq. by eexists.
    + by rewrite lookup_insert_ne.
  - by rewrite admin_login_activities.
  - by rewrite admin_logout_activities.
Qed.

(** X14: the catalogue is fixed.  In every reachable state the activities
    are exactly the nine of the seed data, each with the description,
    schedule and capacity it was seeded with: no request creates, deletes,
    renames or re-describes an activity. *)
Theorem reachable_catalogue (σ : State) :
  reachable TEACHER_CREDS σ →
  dom (activities σ) = dom initial_activities ∧
  ∀ name,
    match initial_activities !! name with
    | Some a0 => ∃ a, activities σ !! name = Some a ∧ same_details a0 a
    | None => activities σ !! name = None
    end.
Proof.
  intros Hreach.
  assert (∀ name,
            match initial_activities !! name with
            | Some a0 => ∃ a, activities σ !! name = Some a ∧ same_details a0 a
            | None => activities σ !! name = None
            end) as Hall.
  { induction Hreach as [|σ r uuid4_hex utcnow Hreach IH]; intros name.
    - cbn [activities initial_state].
      destruct (initial_activities !! name) as [a0|]; [|done]. by exists a0.
    - specialize (IH name).
      pose proof (handle_details r uuid4_hex utcnow σ name) as Hstep.
      destruct (initial_activities !! name) as [a0|].
      + destruct IH as (a & Ha & Hdetails). rewrite Ha in Hstep.
        destruct Hstep as (a' & Ha' & Hdetails'). exists a'. split; [done|].
        destruct Hdetails as (? & ? & ?), Hdetails' as (? & ? & ?).
        repeat split; congruence.
      + by rewrite IH in Hstep. }
  split; [|exact Hall].
  apply set_eq. intros name. rewrite !elem_of_dom. specialize (Hall name).
  destruct (initial_activities !! name) as [a0|].
  - destruct Hall as (a & -> & _). split; by eexists.
  - rewrite Hall. done.
Qed.
End Catalogue.

Lemma reachable_catalogue_witness :
  dom (activities Example.after_morning) = dom initial_activities.
Proof.
  apply (@reachable_catalogue Calendar.calendar Example.creds
           Example.after_morning).
  apply serve_reachable. constructor.
Defined.
